(** * Serverless Snacks: the order pipeline, embedded and verified

    The development follows the three source files that carry behaviour:

    - [lambdas/order_creator.py]    ->  [order_creator.handler]
    - [lambdas/order_processor.py]  ->  [order_processor.handler]
    - [serverless_snacks/serverless_snacks_stack.py]
                                    ->  [ServerlessSnacksStack] (table key
                                        schema and the dead-letter alarm)

    Python values are a small untyped universe ([value]); a handler is a
    function from the process environment, the behaviour of the two AWS
    services during the invocation, the event and the current [world] to
    an [outcome] (a returned response or a raised exception) and the next
    [world]. *)

From stdpp Require Import base option list strings gmap relations.
From Stdlib Require Import ZArith String Ascii DecimalString.

Set Warnings "-register-all".
Local Open Scope string_scope.
Local Open Scope Z_scope.

(** ** Python values *)

(** The values a Lambda event or a parsed JSON document is made of.  The
    handlers never compute with floats; they only test them for truth, so
    the float carrier [F] stays abstract.  A [dict] keeps insertion order,
    as Python's does. *)
Inductive value (F : Type) : Type :=
| VNone
| VBool (b : bool)
| VInt (n : Z)
| VFloat (x : F)
| VStr (s : string)
| VList (xs : list (value F))
| VDict (kvs : list (string * value F)).

Arguments VNone {F}.
Arguments VBool {F} b.
Arguments VInt {F} n.
Arguments VFloat {F} x.
Arguments VStr {F} s.
Arguments VList {F} xs.
Arguments VDict {F} kvs.

Definition dict (F : Type) : Type := list (string * value F).

(** [d.get(k)] on the entries of a dict: [None] when the key is absent. *)
Fixpoint dict_get {F} (k : string) (d : dict F) : option (value F) :=
  match d with
  | [] => None
  | (k', v) :: d' => if String.eqb k k' then Some v else dict_get k d'
  end.

(** [d[k] = v]: replaces the value in place, or appends a new key. *)
Fixpoint dict_set {F} (k : string) (v : value F) (d : dict F) : dict F :=
  match d with
  | [] => [(k, v)]
  | (k', v') :: d' =>
      if String.eqb k k' then (k', v) :: d' else (k', v') :: dict_set k v d'
  end.

(** What the Python runtime and the [json] module contribute.
    [loads s = None] stands for [json.loads] raising [JSONDecodeError]. *)
Class Runtime (F : Type) : Type := {
  float_nonzero : F -> bool;
  loads : string -> option (value F);
  dumps : value F -> string
}.

(** Python truth value testing, as used by [not x]. *)
Definition truthy {F} `{Runtime F} (v : value F) : bool :=
  match v with
  | VNone => false
  | VBool b => b
  | VInt n => negb (n =? 0)
  | VFloat x => float_nonzero x
  | VStr s => negb (String.eqb s "")
  | VList xs => match xs with [] => false | _ => true end
  | VDict kvs => match kvs with [] => false | _ => true end
  end.

(** ** Exceptions, responses *)

Inductive exn : Type :=
| ClientError (code : string)  (* botocore.exceptions.ClientError *)
| AttributeError               (* [.get] on a value that is not a dict *)
| TypeError                    (* boto3's serializer on a float *)
| DecimalException             (* a trapped signal of boto3's decimal
                                  context: decimal.Rounded, Inexact, ... *)
| OtherError (name : string).  (* any other class, such as botocore's
                                  connection and timeout errors *)

Definition ConditionalCheckFailedException : string :=
  "ConditionalCheckFailedException".

(** [v.get(k, default)]: only a dict has the method. *)
Definition py_get {F} (v : value F) (k : string) (dflt : value F)
  : exn + value F :=
  match v with
  | VDict d => inr (default dflt (dict_get k d))
  | _ => inl AttributeError
  end.

(** What boto3 raises, if anything, when it turns a Python value into a
    DynamoDB attribute value, before any request is sent: a float is
    refused with [TypeError], and a number goes through a decimal
    context of 38 digits that traps rounding.  Lists and maps are
    serialized element by element, in order. *)
Fixpoint serialize_error {F} (v : value F) : option exn :=
  match v with
  | VNone => None
  | VBool _ => None
  | VInt n => if Z.abs n <? 10 ^ 38 then None else Some DecimalException
  | VFloat _ => Some TypeError
  | VStr _ => None
  | VList xs =>
      (fix elements (l : list (value F)) : option exn :=
         match l with
         | [] => None
         | x :: l' =>
             match serialize_error x with
             | Some e => Some e
             | None => elements l'
             end
         end) xs
  | VDict kvs =>
      (fix members (l : list (string * value F)) : option exn :=
         match l with
         | [] => None
         | (_, x) :: l' =>
             match serialize_error x with
             | Some e => Some e
             | None => members l'
             end
         end) kvs
  end.

(** The dict [{"statusCode": ..., "body": ...}] every handler returns. *)
Record response : Type := { statusCode : Z; body : string }.

Inductive outcome : Type :=
| Return (r : response)
| Raise (e : exn).

(** ** The stack: what the handlers are deployed against *)

Module ServerlessSnacksStack.

Inductive AttributeType : Type := BINARY | NUMBER | STRING.

Record Attribute : Type := { name : string; type : AttributeType }.

(** [OrdersTable]: partition key [orderId], a string. *)
Definition partition_key : Attribute :=
  {| name := "orderId"; type := STRING |}.

Inductive ComparisonOperator : Type :=
| GREATER_THAN_OR_EQUAL_TO_THRESHOLD
| GREATER_THAN_THRESHOLD
| LESS_THAN_THRESHOLD
| LESS_THAN_OR_EQUAL_TO_THRESHOLD.

Record Alarm : Type := {
  period_minutes : Z;          (* sampling period of the metric *)
  evaluation_periods : nat;
  threshold : Z;
  comparison_operator : ComparisonOperator
}.

(** [DLQAlarm] over the dead-letter queue's
    [ApproximateNumberOfMessagesVisible], sampled every minute. *)
Definition DLQAlarm : Alarm :=
  {| period_minutes := 1;
     evaluation_periods := 1;
     threshold := 5;
     comparison_operator := GREATER_THAN_OR_EQUAL_TO_THRESHOLD |}.

(** One datapoint against the threshold. *)
Definition breaching (a : Alarm) (x : Z) : bool :=
  match comparison_operator a with
  | GREATER_THAN_OR_EQUAL_TO_THRESHOLD => threshold a <=? x
  | GREATER_THAN_THRESHOLD => threshold a <? x
  | LESS_THAN_THRESHOLD => x <? threshold a
  | LESS_THAN_OR_EQUAL_TO_THRESHOLD => x <=? threshold a
  end.

(** CloudWatch's evaluation of an alarm with these fields: the alarm is
    raised when each of the [evaluation_periods] most recent datapoints
    (newest first) is breaching. *)
Definition in_alarm (a : Alarm) (datapoints : list Z) : bool :=
  let recent := take (evaluation_periods a) datapoints in
  (List.length recent =? evaluation_periods a)%nat
  && forallb (breaching a) recent.

(** The event rule that routes created orders to the processor, and
    the bus it listens on. *)
Definition event_bus_name : string := "OrderEventBus".
Definition rule_source : list string := ["serverless.snacks"].
Definition rule_detail_type : list string := ["OrderCreated"].

End ServerlessSnacksStack.

(** ** The two AWS services, as the handlers see them *)

(** An entry of [events_client.put_events(Entries=[...])]. *)
Record entry : Type := {
  Source : string;
  DetailType : string;
  Detail : string;
  EventBusName : string
}.

(** The condition expressions the handlers use, both on the partition
    key attribute.  A stored item always carries its key, so
    [Attr("orderId").exists()] holds exactly when an item with the
    requested key is stored. *)
Inductive condition : Type :=
| key_not_exists      (* Attr("orderId").not_exists() *)
| key_exists.         (* Attr("orderId").exists() *)

(** Every call a handler makes on a service, in order, whether or not
    the service accepted it. *)
Inductive api_call (F : Type) : Type :=
| PutItem (Item : dict F)
| UpdateItem (Key : dict F)
| PutEvents (Entries : list entry).

Arguments PutItem {F} Item.
Arguments UpdateItem {F} Key.
Arguments PutEvents {F} Entries.

(** The state outside the handlers: the orders table (items by partition
    key), the events accepted by the bus (oldest first) and the log of
    service calls. *)
Record world (F : Type) : Type := {
  orders : gmap string (dict F);
  bus : list entry;
  calls : list (api_call F)
}.

Arguments orders {F} w.
Arguments bus {F} w.
Arguments calls {F} w.

Definition empty_world {F} : world F :=
  {| orders := ∅; bus := []; calls := [] |}.

(** How the services behave during one invocation, apart from the
    conditional logic.  [Some e] makes the call raise [e] without
    effect: a [ClientError] when the service answers with an error code
    (throttling, missing permissions, an internal failure, ...), another
    exception when the request does not get through (no connection, a
    timeout, ...).  [events_rejected] makes [put_events] return
    normally with its entry counted in [FailedEntryCount] and not
    accepted by the bus. *)
Record faults : Type := {
  store_fault : option exn;
  events_fault : option exn;
  events_rejected : bool
}.

Definition no_faults : faults :=
  {| store_fault := None; events_fault := None; events_rejected := false |}.

Section Services.
Context {F : Type}.

Definition log (c : api_call F) (w : world F) : world F :=
  {| orders := orders w; bus := bus w; calls := calls w ++ [c] |}.

Definition set_orders (t : gmap string (dict F)) (w : world F) : world F :=
  {| orders := t; bus := bus w; calls := calls w |}.

(** The partition key of a request, when it has the type the table
    schema asks for. *)
Definition key_of (d : dict F) : option string :=
  let key := ServerlessSnacksStack.partition_key in
  match dict_get (ServerlessSnacksStack.name key) d with
  | Some (VStr k) => Some k
  | _ => None
  end.

Definition check (c : condition) (existing : option (dict F)) : bool :=
  match c, existing with
  | key_not_exists, None => true
  | key_not_exists, Some _ => false
  | key_exists, None => false
  | key_exists, Some _ => true
  end.

(** [table.put_item(Item=..., ConditionExpression=...)]: boto3
    serializes the item, which can fail before anything is sent; then
    DynamoDB checks the key against the schema, evaluates the condition
    on the item stored under that key and, when it holds, writes the
    whole item; check and write are one atomic step. *)
Definition put_item (fault : option exn) (Item : dict F) (c : condition)
    (w : world F) : (exn + unit) * world F :=
  let w := log (PutItem Item) w in
  match serialize_error (VDict Item) with
  | Some e => (inl e, w)
  | None =>
  match fault with
  | Some e => (inl e, w)
  | None =>
      match key_of Item with
      | None => (inl (ClientError "ValidationException"), w)
      | Some k =>
          if check c (orders w !! k)
          then (inr (), set_orders (<[k := Item]> (orders w)) w)
          else (inl (ClientError ConditionalCheckFailedException), w)
      end
  end end.

(** [table.update_item(Key=..., UpdateExpression="SET #a = :v", ...)]:
    boto3 serializes the key and the new value; then DynamoDB sets one
    attribute of the item under the key when the condition holds (an
    absent item would start from the key alone). *)
Definition update_item (fault : option exn) (Key : dict F)
    (attr : string) (v : value F) (c : condition)
    (w : world F) : (exn + unit) * world F :=
  let w := log (UpdateItem Key) w in
  match serialize_error (VList [VDict Key; v]) with
  | Some e => (inl e, w)
  | None =>
  match fault with
  | Some e => (inl e, w)
  | None =>
      match key_of Key with
      | None => (inl (ClientError "ValidationException"), w)
      | Some k =>
          if check c (orders w !! k)
          then (inr (),
                set_orders
                  (<[k := dict_set attr v (default Key (orders w !! k))]>
                     (orders w)) w)
          else (inl (ClientError ConditionalCheckFailedException), w)
      end
  end end.

(** [events_client.put_events(Entries=...)]: raises, or returns a
    response whose [FailedEntryCount] counts the entries the bus did
    not accept; the accepted ones are on the bus. *)
Definition put_events (fault : option exn) (rejected : bool)
    (Entries : list entry) (w : world F) : (exn + nat) * world F :=
  let w := log (PutEvents Entries) w in
  match fault with
  | Some e => (inl e, w)
  | None =>
      if rejected then (inr (List.length Entries), w)
      else (inr O, {| orders := orders w; bus := bus w ++ Entries;
                      calls := calls w |})
  end.

End Services.

(** [environ.get("TABLE_NAME")] followed by [not table_name]. *)
Definition table_name_missing (environ : gmap string string) : bool :=
  match environ !! "TABLE_NAME" with
  | None => true
  | Some s => String.eqb s ""
  end.

Definition error_response {F} `{Runtime F} (code : Z) (msg : string)
  : response :=
  {| statusCode := code; body := dumps (VDict [("error", VStr msg)]) |}.

(** ** lambdas/order_creator.py *)

Module order_creator.
Section handler.
Context {F : Type} `{Runtime F}.

(** [body = event.get("body", "{}")] and
    [loads(body) if isinstance(body, str) else body]; [None] when
    [loads] raises [JSONDecodeError]. *)
Definition parse_body (event : dict F) : option (value F) :=
  let body := default (VStr "{}") (dict_get "body" event) in
  match body with
  | VStr s => loads s
  | _ => Some body
  end.

Definition handler (environ : gmap string string) (aws : faults)
    (event : dict F) (w : world F) : outcome * world F :=
  if table_name_missing environ then
    (Return (error_response 500 "Server misconfiguration"), w)
  else
  match parse_body event with
  | None => (Return (error_response 400 "Invalid JSON in request body"), w)
  | Some order =>
  match py_get order "orderId" VNone with
  | inl e => (Raise e, w)
  | inr order_id =>
  if negb (truthy order_id) then
    (Return (error_response 400 "Missing 'orderId' in request"), w)
  else
  match py_get order "item" (VStr "unknown") with
  | inl e => (Raise e, w)
  | inr item =>
  match put_item (store_fault aws)
          [("orderId", order_id); ("status", VStr "NEW"); ("item", item)]
          key_not_exists w with
  | (inl (ClientError code), w1) =>
      if String.eqb code ConditionalCheckFailedException
      then (Return (error_response 409 "Order already exists"), w1)
      else (Return (error_response 500 "Internal server error"), w1)
  | (inl e, w1) => (Raise e, w1)
  | (inr _, w1) =>
  match put_events (events_fault aws) (events_rejected aws)
          [{| Source := "serverless.snacks";
              DetailType := "OrderCreated";
              Detail := dumps (VDict [("orderId", order_id); ("item", item)]);
              EventBusName := "OrderEventBus" |}] w1 with
  | (inl (ClientError _), w2) =>
      (Return (error_response 502 "Failed to publish event"), w2)
  | (inl e, w2) => (Raise e, w2)
  | (inr _, w2) =>
      (Return {| statusCode := 200;
                 body := dumps (VDict [("orderId", order_id);
                                       ("status", VStr "NEW")]) |}, w2)
  end end end end end.

End handler.
End order_creator.

(** ** lambdas/order_processor.py *)

Module order_processor.
Section handler.
Context {F : Type} `{Runtime F}.

Definition handler (environ : gmap string string) (aws : faults)
    (event : dict F) (w : world F) : outcome * world F :=
  if table_name_missing environ then
    (Return (error_response 500 "Server misconfiguration"), w)
  else
  let order := default VNone (dict_get "detail" event) in
  match (if truthy order then py_get order "orderId" VNone
         else inr VNone) with
  | inl e => (Raise e, w)
  | inr order_id =>
  if negb (truthy order_id) then
    (Return (error_response 400 "Invalid event payload"), w)
  else
  match update_item (store_fault aws) [("orderId", order_id)]
          "status" (VStr "PROCESSED") key_exists w with
  | (inl e, w1) => (Raise e, w1)
  | (inr _, w1) =>
      (Return {| statusCode := 200;
                 body := dumps (VDict [("orderId", order_id);
                                       ("status", VStr "PROCESSED")]) |}, w1)
  end end.

End handler.
End order_processor.

(** ** An executable [json] for documents without floats

    The theorems below hold for every [Runtime]; this instance makes the
    handlers run.  It implements [json.dumps] (default separators,
    [ensure_ascii]) and [json.loads] on the documents whose numbers are
    integers and whose characters are code points below 256, which is
    all the repository's tests use.  A numeral with a fraction or an
    exponent, [NaN] and [Infinity] would need a float and are refused. *)

Module Json.

Definition jvalue : Type := value Empty_set.

Definition dquote : ascii := "034"%char.
Definition backslash : ascii := "092"%char.

Definition str1 (c : ascii) : string := String c EmptyString.

(** Writes test documents with ['] where JSON has the double quote. *)
Fixpoint q (s : string) : string :=
  match s with
  | EmptyString => EmptyString
  | String c s' => String (if Ascii.eqb c "'" then dquote else c) (q s')
  end.

Definition hex_digit (n : N) : ascii :=
  ascii_of_N (if (n <? 10)%N then 48 + n else 87 + n)%N.

(** One character inside a JSON string, as [json.dumps] writes it. *)
Definition escape_char (c : ascii) : string :=
  let n := N_of_ascii c in
  if Ascii.eqb c dquote then String backslash (str1 dquote)
  else if Ascii.eqb c backslash then String backslash (str1 backslash)
  else if (n =? 8)%N then String backslash "b"
  else if (n =? 9)%N then String backslash "t"
  else if (n =? 10)%N then String backslash "n"
  else if (n =? 12)%N then String backslash "f"
  else if (n =? 13)%N then String backslash "r"
  else if ((32 <=? n) && (n <=? 126))%N then str1 c
  else String backslash
         (String "u" (String "0" (String "0"
            (String (hex_digit (n / 16)) (str1 (hex_digit (n mod 16))))))).

Fixpoint escape (s : string) : string :=
  match s with
  | EmptyString => EmptyString
  | String c s' => escape_char c ++ escape s'
  end.

Definition quote (s : string) : string :=
  String dquote (escape s ++ str1 dquote).

Fixpoint join (sep : string) (l : list string) : string :=
  match l with
  | [] => EmptyString
  | [x] => x
  | x :: l' => x ++ sep ++ join sep l'
  end.

Fixpoint json_dumps (v : jvalue) : string :=
  match v with
  | VNone => "null"
  | VBool b => if b then "true" else "false"
  | VInt n => DecimalString.NilZero.string_of_int (Z.to_int n)
  | VFloat x => match x with end
  | VStr s => quote s
  | VList xs => "[" ++ join ", " (List.map json_dumps xs) ++ "]"
  | VDict kvs =>
      "{" ++ join ", "
               (List.map (fun kv => match kv with
                                    | (k, v') =>
                                        quote k ++ ": " ++ json_dumps v'
                                    end) kvs) ++ "}"
  end.

(** *** The decoder *)

Definition is_ws (c : ascii) : bool :=
  let n := N_of_ascii c in
  ((n =? 32) || (n =? 9) || (n =? 10) || (n =? 13))%N.

Fixpoint skip_ws (l : list ascii) : list ascii :=
  match l with
  | c :: l' => if is_ws c then skip_ws l' else l
  | [] => []
  end.

Definition digit_of (c : ascii) : option Z :=
  let n := N_of_ascii c in
  if ((48 <=? n) && (n <=? 57))%N then Some (Z.of_N n - 48) else None.

Definition hex_of (c : ascii) : option N :=
  let n := N_of_ascii c in
  if ((48 <=? n) && (n <=? 57))%N then Some (n - 48)%N
  else if ((97 <=? n) && (n <=? 102))%N then Some (n - 87)%N
  else if ((65 <=? n) && (n <=? 70))%N then Some (n - 55)%N
  else None.

Definition hex4 (a b c d : ascii) : option N :=
  match hex_of a, hex_of b, hex_of c, hex_of d with
  | Some x, Some y, Some z, Some t => Some (((x * 16 + y) * 16 + z) * 16 + t)%N
  | _, _, _, _ => None
  end.

(** The characters of a string literal after its opening quote. *)
Fixpoint scan_string (l : list ascii) : option (string * list ascii) :=
  match l with
  | [] => None
  | c :: l' =>
      if Ascii.eqb c dquote then Some (EmptyString, l')
      else if Ascii.eqb c backslash then
        match l' with
        | [] => None
        | e :: l'' =>
            let plain (ch : ascii) :=
              match scan_string l'' with
              | Some (s, r) => Some (String ch s, r)
              | None => None
              end in
            if Ascii.eqb e dquote then plain dquote
            else if Ascii.eqb e backslash then plain backslash
            else if Ascii.eqb e "/" then plain "/"%char
            else if Ascii.eqb e "b" then plain "008"%char
            else if Ascii.eqb e "f" then plain "012"%char
            else if Ascii.eqb e "n" then plain "010"%char
            else if Ascii.eqb e "r" then plain "013"%char
            else if Ascii.eqb e "t" then plain "009"%char
            else if Ascii.eqb e "u" then
              match l'' with
              | h1 :: h2 :: h3 :: h4 :: l5 =>
                  match hex4 h1 h2 h3 h4 with
                  | Some n =>
                      if (n <? 256)%N then
                        match scan_string l5 with
                        | Some (s, r) => Some (String (ascii_of_N n) s, r)
                        | None => None
                        end
                      else None
                  | None => None
                  end
              | _ => None
              end
            else None
        end
      else if (N_of_ascii c <? 32)%N then None
      else
        match scan_string l' with
        | Some (s, r) => Some (String c s, r)
        | None => None
        end
  end.

Fixpoint scan_digits (acc : Z) (l : list ascii) : Z * list ascii :=
  match l with
  | c :: l' =>
      match digit_of c with
      | Some d => scan_digits (acc * 10 + d) l'
      | None => (acc, l)
      end
  | [] => (acc, l)
  end.

Definition starts_float (l : list ascii) : bool :=
  match l with
  | c :: _ => Ascii.eqb c "." || Ascii.eqb c "e" || Ascii.eqb c "E"
  | [] => false
  end.

(** An integer numeral: an optional minus sign, then 0 or a digit
    string without leading zero. *)
Definition scan_number (l : list ascii) : option (jvalue * list ascii) :=
  let '(sign, l1) :=
    match l with
    | c :: l' => if Ascii.eqb c "-" then (-1, l') else (1, l)
    | [] => (1, l)
    end in
  match l1 with
  | c :: l2 =>
      match digit_of c with
      | Some d =>
          let '(n, r) := if d =? 0 then (0, l2) else scan_digits d l2 in
          if starts_float r then None else Some (VInt (sign * n), r)
      | None => None
      end
  | [] => None
  end.

Fixpoint scan_value (fuel : nat) (l : list ascii) {struct fuel}
  : option (jvalue * list ascii) :=
  match fuel with
  | O => None
  | S fuel' =>
      let elements :=
        fix elements (n : nat) (l : list ascii) (acc : list jvalue)
            {struct n} : option (jvalue * list ascii) :=
          match n with
          | O => None
          | S n' =>
              match scan_value fuel' l with
              | None => None
              | Some (v, r) =>
                  match skip_ws r with
                  | c :: r' =>
                      if Ascii.eqb c ","
                      then elements n' (skip_ws r') (v :: acc)
                      else if Ascii.eqb c "]"
                      then Some (VList (rev (v :: acc)), r')
                      else None
                  | [] => None
                  end
              end
          end in
      let members :=
        fix members (n : nat) (l : list ascii) (acc : dict Empty_set)
            {struct n} : option (jvalue * list ascii) :=
          match n with
          | O => None
          | S n' =>
              match l with
              | c :: l1 =>
                  if Ascii.eqb c dquote then
                    match scan_string l1 with
                    | None => None
                    | Some (k, r) =>
                        match skip_ws r with
                        | c1 :: r1 =>
                            if Ascii.eqb c1 ":" then
                              match scan_value fuel' (skip_ws r1) with
                              | None => None
                              | Some (v, r2) =>
                                  match skip_ws r2 with
                                  | c2 :: r3 =>
                                      if Ascii.eqb c2 ","
                                      then members n' (skip_ws r3)
                                             (dict_set k v acc)
                                      else if Ascii.eqb c2 "}"
                                      then Some (VDict (dict_set k v acc), r3)
                                      else None
                                  | [] => None
                                  end
                              end
                            else None
                        | [] => None
                        end
                    end
                  else None
              | [] => None
              end
          end in
      match l with
      | [] => None
      | c :: r =>
          if Ascii.eqb c dquote then
            match scan_string r with
            | Some (s, r') => Some (VStr s, r')
            | None => None
            end
          else if Ascii.eqb c "[" then
            match skip_ws r with
            | c' :: r' =>
                if Ascii.eqb c' "]" then Some (VList [], r')
                else elements fuel' (c' :: r') []
            | [] => None
            end
          else if Ascii.eqb c "{" then
            match skip_ws r with
            | c' :: r' =>
                if Ascii.eqb c' "}" then Some (VDict [], r')
                else members fuel' (c' :: r') []
            | [] => None
            end
          else
            match l with
            | "n"%char :: "u"%char :: "l"%char :: "l"%char :: r' =>
                Some (VNone, r')
            | "t"%char :: "r"%char :: "u"%char :: "e"%char :: r' =>
                Some (VBool true, r')
            | "f"%char :: "a"%char :: "l"%char :: "s"%char :: "e"%char :: r' =>
                Some (VBool false, r')
            | _ => scan_number l
            end
      end
  end.

Definition json_loads (s : string) : option jvalue :=
  let l := list_ascii_of_string s in
  match scan_value (S (List.length l)) (skip_ws l) with
  | Some (v, r) => match skip_ws r with [] => Some v | _ => None end
  | None => None
  end.

#[global] Instance runtime : Runtime Empty_set :=
  {| float_nonzero := fun x : Empty_set => match x with end;
     loads := json_loads;
     dumps := json_dumps |}.

End Json.

(** ** The pipeline as a transition system *)

(** One invocation of one of the two functions: its process environment,
    the behaviour of the services while it runs, and its event. *)
Inductive invocation (F : Type) : Type :=
| Create (environ : gmap string string) (aws : faults) (event : dict F)
| Process (environ : gmap string string) (aws : faults) (event : dict F).

Arguments Create {F} environ aws event.
Arguments Process {F} environ aws event.

Definition invoke {F} `{Runtime F} (i : invocation F) (w : world F)
  : outcome * world F :=
  match i with
  | Create environ aws event => order_creator.handler environ aws event w
  | Process environ aws event => order_processor.handler environ aws event w
  end.

Definition step {F} `{Runtime F} (w w' : world F) : Prop :=
  ∃ i, (invoke i w).2 = w'.

(** The worlds the deployed system can be in: it starts with an empty
    table and only the two handlers touch it. *)
Definition reachable {F} `{Runtime F} (w : world F) : Prop :=
  rtc step empty_world w.

(** Where the order with a given id stands. *)
Inductive lifecycle : Type := Absent | New | Processed | Unknown.

Definition lifecycle_of {F} (w : world F) (order_id : string) : lifecycle :=
  match orders w !! order_id with
  | None => Absent
  | Some item =>
      match dict_get "status" item with
      | Some (VStr s) =>
          if String.eqb s "NEW" then New
          else if String.eqb s "PROCESSED" then Processed
          else Unknown
      | _ => Unknown
      end
  end.

(** The moves of the state machine: stay, be created, be processed. *)
Inductive moves : lifecycle → lifecycle → Prop :=
| moves_stay s : moves s s
| moves_created : moves Absent New
| moves_processed : moves New Processed.

(** The item the creation handler writes. *)
Definition new_order {F} (order_id item : value F) : dict F :=
  [("orderId", order_id); ("status", VStr "NEW"); ("item", item)].

(** The entry the creation handler publishes. *)
Definition order_created {F} `{Runtime F} (order_id item : value F) : entry :=
  {| Source := "serverless.snacks";
     DetailType := "OrderCreated";
     Detail := dumps (VDict [("orderId", order_id); ("item", item)]);
     EventBusName := "OrderEventBus" |}.

(** Python's [needle in haystack] on strings. *)
Fixpoint contains (needle haystack : string) : bool :=
  String.prefix needle haystack ||
  match haystack with
  | EmptyString => false
  | String _ rest => contains needle rest
  end.

(** The shape of every item the handlers leave in the table. *)
Definition order_item {F} (order_id : string) (item : dict F) : Prop :=
  ∃ it s,
    item = [("orderId", VStr order_id); ("status", VStr s); ("item", it)] ∧
    (s = "NEW" ∨ s = "PROCESSED").

(** ** The wiring of the stack *)

Module Wiring.

(** The two functions the stack deploys. *)
Inductive Function : Type := OrderCreatorLambda | OrderProcessorLambda.

(** [environment={"TABLE_NAME": orders_table.table_name}], given to both
    functions; the name of the table is chosen at deployment. *)
Definition environment (table_name : string) : gmap string string :=
  {["TABLE_NAME" := table_name]}.

(** The permissions the stack hands out. *)
Inductive Grant : Type :=
| grant_write_data           (* orders_table.grant_write_data *)
| grant_read_write_data      (* orders_table.grant_read_write_data *)
| grant_put_events_to.       (* event_bus.grant_put_events_to *)

Definition grants (f : Function) : list Grant :=
  match f with
  | OrderCreatorLambda => [grant_write_data; grant_put_events_to]
  | OrderProcessorLambda => [grant_read_write_data]
  end.

(** Which of the handlers' calls a grant covers: the table grants cover
    the data writes on the table, the bus grant covers [PutEvents]. *)
Definition allows {F} (g : Grant) (c : api_call F) : bool :=
  match g, c with
  | grant_write_data, PutItem _ => true
  | grant_write_data, UpdateItem _ => true
  | grant_read_write_data, PutItem _ => true
  | grant_read_write_data, UpdateItem _ => true
  | grant_put_events_to, PutEvents _ => true
  | _, _ => false
  end.

Definition permitted {F} (f : Function) (c : api_call F) : bool :=
  existsb (fun g => allows g c) (grants f).

Definition function_of {F} (i : invocation F) : Function :=
  match i with
  | Create _ _ _ => OrderCreatorLambda
  | Process _ _ _ => OrderProcessorLambda
  end.

(** [OrderRule]: the events on [OrderEventBus] whose source and detail
    type are among those of the rule's pattern. *)
Definition rule_matches (e : entry) : bool :=
  String.eqb (EventBusName e) ServerlessSnacksStack.event_bus_name
  && existsb (String.eqb (Source e)) ServerlessSnacksStack.rule_source
  && existsb (String.eqb (DetailType e))
       ServerlessSnacksStack.rule_detail_type.

(** What the rule's target is invoked with: the fields of the event
    envelope that the entry determines, its [Detail] parsed. *)
Definition delivered {F} `{Runtime F} (e : entry) : option (dict F) :=
  match loads (Detail e) with
  | Some detail =>
      Some [("source", VStr (Source e));
            ("detail-type", VStr (DetailType e));
            ("detail", detail)]
  | None => None
  end.

End Wiring.

(** ** The inputs of the repository's tests *)

Module Tests.
Import Json.

(** [environ["TABLE_NAME"] = "OrdersTable"]. *)
Definition environ : gmap string string :=
  {["TABLE_NAME" := "OrdersTable"]}.

(** [{"body": dumps({"orderId": "123", "item": "chips"})}]. *)
Definition chips_event : dict Empty_set :=
  [("body", VStr (json_dumps (VDict [("orderId", VStr "123");
                                     ("item", VStr "chips")])))].

(** The same order asking for another item. *)
Definition crisps_event : dict Empty_set :=
  [("body", VStr (json_dumps (VDict [("orderId", VStr "123");
                                     ("item", VStr "crisps")])))].

(** [{"body": dumps({"item": "chips"})}]. *)
Definition missing_orderId_event : dict Empty_set :=
  [("body", VStr (json_dumps (VDict [("item", VStr "chips")])))].

(** [{"body": "{invalid_json"}]. *)
Definition invalid_json_event : dict Empty_set :=
  [("body", VStr "{invalid_json")].

(** [{"detail": {"orderId": "123"}}]. *)
Definition order_123_event : dict Empty_set :=
  [("detail", VDict [("orderId", VStr "123")])].

(** A throttled service call. *)
Definition throttled : exn := ClientError "ThrottlingException".

(** The world after the creation test: order 123 stored as [NEW]. *)
Definition world_created : world Empty_set :=
  (order_creator.handler environ no_faults chips_event
     empty_world).2.

(** The world after order 123 has then been processed. *)
Definition world_processed : world Empty_set :=
  (order_processor.handler environ no_faults order_123_event
     world_created).2.

Definition publish_throttled : faults :=
  {| store_fault := None; events_fault := Some throttled;
     events_rejected := false |}.

Definition store_throttled : faults :=
  {| store_fault := Some throttled; events_fault := None;
     events_rejected := false |}.

(** The bus has no connection: botocore's [EndpointConnectionError]. *)
Definition publish_unreachable : faults :=
  {| store_fault := None;
     events_fault := Some (OtherError "EndpointConnectionError");
     events_rejected := false |}.

(** [put_events] returns [{"FailedEntryCount": 1, ...}]. *)
Definition publish_rejected : faults :=
  {| store_fault := None; events_fault := None; events_rejected := true |}.

(** Order 123 asking for an item that is a number of 41 digits. *)
Definition huge_item_event : dict Empty_set :=
  [("body", VDict [("orderId", VStr "123"); ("item", VInt (10 ^ 40))])].

End Tests.

(** * Verification *)

Section Verification.
Context {F : Type} `{Runtime F}.
Local Open Scope list_scope.

Implicit Types (w : world F) (event d : dict F) (aws : faults)
  (environ : gmap string string) (k : string).

(** *** The service calls *)

Lemma put_item_spec fault (Item : dict F) c w r w' :
  put_item fault Item c w = (r, w') →
  bus w' = bus w ∧ calls w' = calls w ++ [PutItem Item] ∧
  ((orders w' = orders w ∧ ∃ e, r = inl e ∧
      (∀ e', serialize_error (VDict Item) = Some e' → e = e') ∧
      (serialize_error (VDict Item) = None →
       (∀ e', fault = Some e' → e = e') ∧
       (fault = None → ∀ k, key_of Item = Some k →
          check c (orders w !! k) = false ∧
          e = ClientError ConditionalCheckFailedException))) ∨
   (∃ k, serialize_error (VDict Item) = None ∧
         fault = None ∧ key_of Item = Some k ∧
         check c (orders w !! k) = true ∧ r = inr () ∧
         orders w' = <[k := Item]> (orders w))).
Proof.
  unfold put_item. intros Heq.
  destruct (serialize_error (VDict Item)) as [e0|].
  { inversion Heq; subst; simpl. split_and!; try done.
    left. split; [done|]. exists e0. split_and!; [done| |done].
    by intros e' [= <-]. }
  destruct fault as [e0|]; simpl in Heq.
  - inversion Heq; subst; simpl. split_and!; try done.
    left. split; [done|]. exists e0. split_and!; [done|done|].
    intros _. split; [|done]. by intros e' [= <-].
  - destruct (key_of Item) as [k|] eqn:Hk; simpl in Heq.
    + destruct (check c (orders w !! k)) eqn:Hc;
        inversion Heq; subst; simpl; split_and!; try done.
      * right. exists k. done.
      * left. split; [done|]. eexists. split_and!; [done|done|].
        intros _. split; [done|]. intros _ k' [= <-]. done.
    + inversion Heq; subst; simpl. split_and!; try done.
      left. split; [done|]. eexists. split_and!; [done|done|].
      intros _. split; [done|]. intros _ k' [=].
Qed.

Lemma update_item_spec fault (Key : dict F) attr v c w r w' :
  update_item fault Key attr v c w = (r, w') →
  bus w' = bus w ∧ calls w' = calls w ++ [UpdateItem Key] ∧
  ((orders w' = orders w ∧ ∃ e, r = inl e ∧
      (∀ e', serialize_error (VList [VDict Key; v]) = Some e' → e = e') ∧
      (serialize_error (VList [VDict Key; v]) = None →
       (∀ e', fault = Some e' → e = e') ∧
       (fault = None → ∀ k, key_of Key = Some k →
          check c (orders w !! k) = false ∧
          e = ClientError ConditionalCheckFailedException))) ∨
   (∃ k, serialize_error (VList [VDict Key; v]) = None ∧
         fault = None ∧ key_of Key = Some k ∧
         check c (orders w !! k) = true ∧ r = inr () ∧
         orders w' =
           <[k := dict_set attr v (default Key (orders w !! k))]>
             (orders w))).
Proof.
  unfold update_item. intros Heq.
  destruct (serialize_error (VList [VDict Key; v])) as [e0|].
  { inversion Heq; subst; simpl. split_and!; try done.
    left. split; [done|]. exists e0. split_and!; [done| |done].
    by intros e' [= <-]. }
  destruct fault as [e0|]; simpl in Heq.
  - inversion Heq; subst; simpl. split_and!; try done.
    left. split; [done|]. exists e0. split_and!; [done|done|].
    intros _. split; [|done]. by intros e' [= <-].
  - destruct (key_of Key) as [k|] eqn:Hk; simpl in Heq.
    + destruct (check c (orders w !! k)) eqn:Hc;
        inversion Heq; subst; simpl; split_and!; try done.
      * right. exists k. done.
      * left. split; [done|]. eexists. split_and!; [done|done|].
        intros _. split; [done|]. intros _ k' [= <-]. done.
    + inversion Heq; subst; simpl. split_and!; try done.
      left. split; [done|]. eexists. split_and!; [done|done|].
      intros _. split; [done|]. intros _ k' [=].
Qed.

Lemma put_events_spec fault rejected (Entries : list entry) w r w' :
  put_events fault rejected Entries w = (r, w') →
  orders w' = orders w ∧ calls w' = calls w ++ [PutEvents Entries] ∧
  match fault with
  | Some e => r = inl e ∧ bus w' = bus w
  | None =>
      (∃ n, r = inr n) ∧
      bus w' = if rejected then bus w else bus w ++ Entries
  end.
Proof.
  unfold put_events. intros Heq.
  destruct fault; [|destruct rejected]; inversion Heq; subst; simpl;
    eauto.
Qed.

(** A string serializes, so the key of a well-formed request does. *)
Lemma serialize_key k :
  serialize_error (F:=F)
    (VList [VDict [("orderId", VStr k)]; VStr "PROCESSED"]) = None.
Proof. reflexivity. Qed.

Lemma serialize_new_order k (item : value F) :
  serialize_error (VDict (new_order (VStr k) item)) = serialize_error item.
Proof. simpl. by destruct (serialize_error item). Qed.

(** The serializer fails in two ways only, neither a [ClientError]. *)
Lemma serialize_error_kind (v : value F) e :
  serialize_error v = Some e → e = TypeError ∨ e = DecimalException.
Proof.
  revert v e. fix IH 1.
  intros [|b|n|f|s|xs|kvs] e; simpl; try done.
  - case_match; [done|]. intros [= <-]. auto.
  - intros [= <-]. auto.
  - induction xs as [|x xs IHxs]; [done|].
    destruct (serialize_error x) as [e0|] eqn:Hx.
    + intros [= <-]. exact (IH x e0 Hx).
    + exact IHxs.
  - induction kvs as [|[a x] kvs IHkvs]; [done|].
    destruct (serialize_error x) as [e0|] eqn:Hx.
    + intros [= <-]. exact (IH x e0 Hx).
    + exact IHkvs.
Qed.

Lemma serialize_error_not_client (v : value F) code :
  serialize_error v ≠ Some (ClientError code).
Proof. intros Hx. by destruct (serialize_error_kind _ _ Hx). Qed.

Lemma key_of_new_order (order_id item : value F) k :
  key_of (new_order order_id item) = Some k ↔ order_id = VStr k.
Proof.
  unfold key_of, new_order. simpl.
  destruct order_id; split; intros Hx; try done; by simplify_eq.
Qed.

Lemma key_of_key (order_id : value F) k :
  key_of [("orderId", order_id)] = Some k ↔ order_id = VStr k.
Proof.
  unfold key_of. simpl.
  destruct order_id; split; intros Hx; try done; by simplify_eq.
Qed.

(** The conditional insert of a well-formed order, the store answering:
    it is refused when a record exists and writes the item otherwise. *)
Lemma put_item_answered k (item : value F) w :
  serialize_error item = None →
  put_item None (new_order (VStr k) item) key_not_exists w =
    match orders w !! k with
    | Some _ =>
        (inl (ClientError ConditionalCheckFailedException),
         log (PutItem (new_order (VStr k) item)) w)
    | None =>
        (inr (),
         set_orders (<[k := new_order (VStr k) item]> (orders w))
           (log (PutItem (new_order (VStr k) item)) w))
    end.
Proof.
  intros Hser. unfold put_item. rewrite serialize_new_order, Hser.
  rewrite (proj2 (key_of_new_order (VStr k) item k) eq_refl).
  simpl. by destruct (orders w !! k).
Qed.

(** The conditional update of a string key, the store answering. *)
Lemma update_item_answered k w :
  update_item None [("orderId", VStr k)] "status" (VStr "PROCESSED")
    key_exists w =
    match orders w !! k with
    | Some old =>
        (inr (),
         set_orders
           (<[k := dict_set "status" (VStr "PROCESSED") old]> (orders w))
           (log (UpdateItem [("orderId", VStr k)]) w))
    | None =>
        (inl (ClientError ConditionalCheckFailedException),
         log (UpdateItem [("orderId", VStr k)]) w)
    end.
Proof.
  unfold update_item. rewrite serialize_key.
  rewrite (proj2 (key_of_key (VStr k) k) eq_refl).
  simpl. by destruct (orders w !! k).
Qed.

(** *** The creation handler, past its guards *)

Lemma creator_at_store environ aws event w d order_id :
  table_name_missing environ = false →
  order_creator.parse_body event = Some (VDict d) →
  dict_get "orderId" d = Some order_id →
  truthy order_id = true →
  order_creator.handler environ aws event w =
    let item := default (VStr "unknown") (dict_get "item" d) in
    match put_item (store_fault aws) (new_order order_id item)
            key_not_exists w with
    | (inl (ClientError code), w1) =>
        if String.eqb code ConditionalCheckFailedException
        then (Return (error_response 409 "Order already exists"), w1)
        else (Return (error_response 500 "Internal server error"), w1)
    | (inl e, w1) => (Raise e, w1)
    | (inr _, w1) =>
        match put_events (events_fault aws) (events_rejected aws)
                [order_created order_id item] w1 with
        | (inl (ClientError _), w2) =>
            (Return (error_response 502 "Failed to publish event"), w2)
        | (inl e, w2) => (Raise e, w2)
        | (inr _, w2) =>
            (Return {| statusCode := 200;
                       body := dumps (VDict [("orderId", order_id);
                                             ("status", VStr "NEW")]) |},
             w2)
        end
    end.
Proof.
  intros Hcfg Hbody Hid Htrue. unfold order_creator.handler.
  rewrite Hcfg, Hbody. unfold py_get. rewrite Hid. simpl default.
  rewrite Htrue. reflexivity.
Qed.

(** What one run of the creation handler can do to the table and the
    bus: nothing, or insert a fresh [NEW] order, and publish at most
    the matching event. *)
Lemma creator_effect environ aws event w out w' :
  order_creator.handler environ aws event w = (out, w') →
  (orders w' = orders w ∧ bus w' = bus w) ∨
  (∃ k item,
      orders w !! k = None ∧
      orders w' = <[k := new_order (VStr k) item]> (orders w) ∧
      (bus w' = bus w ∨ bus w' = bus w ++ [order_created (VStr k) item])).
Proof.
  unfold order_creator.handler. intros Heq.
  destruct (table_name_missing environ); [by simplify_eq; left|].
  destruct (order_creator.parse_body event) as [order|];
    [|by simplify_eq; left].
  destruct (py_get order "orderId" VNone) as [e|order_id];
    [by simplify_eq; left|].
  destruct (negb (truthy order_id)); [by simplify_eq; left|].
  destruct (py_get order "item" (VStr "unknown")) as [e|item];
    [by simplify_eq; left|].
  destruct (put_item _ _ _ w) as [r w1] eqn:Hput.
  apply put_item_spec in Hput as (Hb1 & _ & [[Ho1 (e & -> & _)]|Hins]).
  - left. destruct e; try case_match; simplify_eq; done.
  - destruct Hins as (k & _ & _ & Hk & Hc & -> & Ho1).
    apply key_of_new_order in Hk as ->.
    destruct (orders w !! k) eqn:Hlook; [done|].
    destruct (put_events _ _ _ w1) as [r2 w2] eqn:Hev.
    apply put_events_spec in Hev as (Ho2 & _ & Hb2).
    right. exists k, item. split; [done|].
    assert (orders w' = orders w2 ∧ bus w' = bus w2) as [-> ->].
    { destruct r2 as [[]|]; simplify_eq; done. }
    rewrite Ho2, Ho1. split; [done|].
    destruct (events_fault aws); destruct Hb2 as [_ ->]; rewrite Hb1;
      [auto|]. destruct (events_rejected aws); auto.
Qed.

(** *** The processing handler, past its guards *)

Lemma processor_at_store environ aws event w d order_id :
  table_name_missing environ = false →
  dict_get "detail" event = Some (VDict d) →
  dict_get "orderId" d = Some order_id →
  truthy order_id = true →
  order_processor.handler environ aws event w =
    match update_item (store_fault aws) [("orderId", order_id)]
            "status" (VStr "PROCESSED") key_exists w with
    | (inl e, w1) => (Raise e, w1)
    | (inr _, w1) =>
        (Return {| statusCode := 200;
                   body := dumps (VDict [("orderId", order_id);
                                         ("status", VStr "PROCESSED")]) |},
         w1)
    end.
Proof.
  intros Hcfg Hdetail Hid Htrue. unfold order_processor.handler.
  rewrite Hcfg, Hdetail. simpl default.
  assert (truthy (VDict d) = true) as ->.
  { destruct d; [done|]. reflexivity. }
  unfold py_get. rewrite Hid. simpl default. rewrite Htrue. reflexivity.
Qed.

Lemma processor_effect environ aws event w out w' :
  order_processor.handler environ aws event w = (out, w') →
  bus w' = bus w ∧
  (orders w' = orders w ∨
   (∃ k old,
       orders w !! k = Some old ∧
       orders w' =
         <[k := dict_set "status" (VStr "PROCESSED") old]> (orders w))).
Proof.
  unfold order_processor.handler. intros Heq.
  destruct (table_name_missing environ); [by simplify_eq; auto|].
  destruct (if truthy _ then _ else _) as [e|order_id];
    [by simplify_eq; auto|].
  destruct (negb (truthy order_id)); [by simplify_eq; auto|].
  destruct (update_item _ _ _ _ _ w) as [r w1] eqn:Hup.
  apply update_item_spec in Hup as (Hb1 & _ & [[Ho1 (e & -> & _)]|Hupd]).
  - simplify_eq. auto.
  - destruct Hupd as (k & _ & _ & Hk & Hc & -> & Ho1). simplify_eq.
    split; [done|]. right.
    destruct (orders w !! k) as [old|] eqn:Hlook; [|done].
    exists k, old. done.
Qed.

Lemma table_name_missing_iff environ :
  table_name_missing environ = true ↔
  environ !! "TABLE_NAME" = None ∨ environ !! "TABLE_NAME" = Some "".
Proof.
  unfold table_name_missing.
  destruct (environ !! "TABLE_NAME") as [s|]; [|by split; auto].
  destruct (String.eqb_spec s "") as [->|Hne]; split; auto.
  - done.
  - intros [|[=]]; done.
Qed.

(** *** Misconfiguration *)

(** C8.  With [TABLE_NAME] absent or empty, either handler returns the
    500 response and leaves the world as it was: table, bus and call
    log are untouched, so no service was called and nothing was
    raised.  In the creation handler this holds for every event,
    whatever its body, because the check comes before any parsing. *)
Theorem missing_table_name_is_500 environ aws event w :
  environ !! "TABLE_NAME" = None ∨ environ !! "TABLE_NAME" = Some "" →
  order_creator.handler environ aws event w =
    (Return {| statusCode := 500;
               body := dumps (VDict [("error",
                                      VStr "Server misconfiguration")]) |},
     w) ∧
  order_processor.handler environ aws event w =
    (Return {| statusCode := 500;
               body := dumps (VDict [("error",
                                      VStr "Server misconfiguration")]) |},
     w).
Proof.
  intros Hmiss%table_name_missing_iff.
  unfold order_creator.handler, order_processor.handler.
  rewrite Hmiss. done.
Qed.

(** *** Creation *)

(** C5.  A valid creation request: the configuration is present, the
    body parses to an object whose [orderId] is a non-empty string not
    yet in the table, and both service calls succeed: the item can be
    serialized, the store call does not fail, and [put_events] neither
    raises nor rejects the entry.  The handler returns 200 with
    [{orderId, status: NEW}], the table gains the item
    [{orderId, status: NEW, item}] with [item] defaulting to
    ["unknown"], and the only calls are one [put_item] and one
    [put_events] carrying the single [OrderCreated] entry. *)
Theorem valid_creation_request environ aws event w d k :
  table_name_missing environ = false →
  order_creator.parse_body event = Some (VDict d) →
  dict_get "orderId" d = Some (VStr k) →
  k ≠ "" →
  orders w !! k = None →
  serialize_error (default (VStr "unknown") (dict_get "item" d)) = None →
  store_fault aws = None →
  events_fault aws = None →
  events_rejected aws = false →
  let item := default (VStr "unknown") (dict_get "item" d) in
  let stored :=
    [("orderId", VStr k); ("status", VStr "NEW"); ("item", item)] in
  let published :=
    {| Source := "serverless.snacks";
       DetailType := "OrderCreated";
       Detail := dumps (VDict [("orderId", VStr k); ("item", item)]);
       EventBusName := "OrderEventBus" |} in
  order_creator.handler environ aws event w =
    (Return {| statusCode := 200;
               body := dumps (VDict [("orderId", VStr k);
                                     ("status", VStr "NEW")]) |},
     {| orders := <[k := stored]> (orders w);
        bus := bus w ++ [published];
        calls := calls w ++ [PutItem stored; PutEvents [published]] |}).
Proof.
  intros Hcfg Hbody Hid Hne Hfresh Hser Hstore Hevents Hrej
    item stored published.
  rewrite (creator_at_store _ _ _ _ d (VStr k)); try done.
  - cbv zeta. fold item. rewrite Hstore, (put_item_answered k item w Hser).
    rewrite Hfresh. unfold put_events. rewrite Hevents, Hrej.
    simpl. rewrite <- app_assoc. done.
  - simpl. by destruct (String.eqb_spec k "").
Qed.

(** C6, as amended.  The conditional insert goes through and the
    publish then fails with a [ClientError]: the handler returns 502,
    the order stays in the table with status [NEW], and nothing reaches
    the bus.  A store fault on the same request is answered with 500
    instead.  A publish that fails with any other exception is not
    caught: it leaves the handler as that exception, the order again
    staying in the table with status [NEW]. *)
Theorem publish_failure_is_502 environ aws event w d k code :
  table_name_missing environ = false →
  order_creator.parse_body event = Some (VDict d) →
  dict_get "orderId" d = Some (VStr k) →
  k ≠ "" →
  orders w !! k = None →
  serialize_error (default (VStr "unknown") (dict_get "item" d)) = None →
  store_fault aws = None →
  events_fault aws = Some (ClientError code) →
  let item := default (VStr "unknown") (dict_get "item" d) in
  (∃ w',
      order_creator.handler environ aws event w =
        (Return {| statusCode := 502;
                   body := dumps (VDict [("error",
                                          VStr "Failed to publish event")]) |},
         w') ∧
      orders w' !! k =
        Some [("orderId", VStr k); ("status", VStr "NEW"); ("item", item)] ∧
      lifecycle_of w' k = New ∧
      bus w' = bus w) ∧
  (∀ aws' code',
      store_fault aws' = Some (ClientError code') →
      code' ≠ ConditionalCheckFailedException →
      ∃ r w', order_creator.handler environ aws' event w = (Return r, w') ∧
              statusCode r = 500 ∧ orders w' = orders w) ∧
  (∀ aws' e,
      store_fault aws' = None →
      events_fault aws' = Some e →
      (∀ code', e ≠ ClientError code') →
      ∃ w', order_creator.handler environ aws' event w = (Raise e, w') ∧
            orders w' !! k =
              Some [("orderId", VStr k); ("status", VStr "NEW");
                    ("item", item)] ∧
            bus w' = bus w).
Proof.
  intros Hcfg Hbody Hid Hne Hfresh Hser Hstore Hevents item.
  assert (truthy (VStr k) = true) as Htrue.
  { simpl. by destruct (String.eqb_spec k ""). }
  split_and!.
  - rewrite (creator_at_store _ _ _ _ d (VStr k)); try done.
    cbv zeta. fold item. rewrite Hstore, (put_item_answered k item w Hser).
    rewrite Hfresh. unfold put_events. rewrite Hevents.
    eexists. split; [done|]. simpl.
    unfold lifecycle_of. simpl. rewrite !lookup_insert_eq. done.
  - intros aws' code' Hstore' Hcode.
    rewrite (creator_at_store _ _ _ _ d (VStr k)); try done.
    cbv zeta. unfold put_item.
    rewrite serialize_new_order, Hser, Hstore'.
    destruct (String.eqb_spec code' ConditionalCheckFailedException);
      [done|].
    eexists _, _. done.
  - intros aws' e Hstore' Hevents' Hother.
    rewrite (creator_at_store _ _ _ _ d (VStr k)); try done.
    cbv zeta. fold item. rewrite Hstore', (put_item_answered k item w Hser).
    rewrite Hfresh. unfold put_events. rewrite Hevents'.
    destruct e as [code'| | | |name]; try by destruct (Hother code').
    all: eexists; split; [done|]; simpl; by rewrite lookup_insert_eq.
Qed.

(** What a 200 from the creation handler tells about the run. *)
Lemma creator_200_inv environ aws event w d order_id r w1 :
  order_creator.parse_body event = Some (VDict d) →
  dict_get "orderId" d = Some order_id →
  order_creator.handler environ aws event w = (Return r, w1) →
  statusCode r = 200 →
  table_name_missing environ = false ∧
  truthy order_id = true ∧
  ∃ k, order_id = VStr k ∧
       orders w !! k = None ∧
       orders w1 =
         <[k := new_order (VStr k)
                  (default (VStr "unknown") (dict_get "item" d))]>
           (orders w) ∧
       serialize_error (default (VStr "unknown") (dict_get "item" d))
         = None ∧
       store_fault aws = None.
Proof.
  intros Hbody Hid Hrun Hcode.
  destruct (table_name_missing environ) eqn:Hcfg.
  { unfold order_creator.handler in Hrun. rewrite Hcfg in Hrun.
    by simplify_eq. }
  destruct (truthy order_id) eqn:Htrue.
  2:{ unfold order_creator.handler in Hrun.
      rewrite Hcfg, Hbody in Hrun. unfold py_get in Hrun.
      rewrite Hid in Hrun. simpl default in Hrun. rewrite Htrue in Hrun.
      cbn [negb] in Hrun. by simplify_eq. }
  split; [done|]. split; [done|].
  rewrite (creator_at_store _ _ _ _ d order_id) in Hrun by done.
  cbv zeta in Hrun.
  destruct (put_item _ _ _ w) as [res w'] eqn:Hput.
  apply put_item_spec in Hput as (Hb & _ & [[Ho (e & -> & _)]|Hins]).
  { destruct e; try case_match; simplify_eq; done. }
  destruct Hins as (k & Hser & Hfault & Hk%key_of_new_order & Hc & -> & Ho).
  subst order_id. exists k. split; [done|].
  rewrite serialize_new_order in Hser.
  destruct (orders w !! k) eqn:Hlook; [done|]. split; [done|].
  destruct (put_events _ _ _ w') as [res2 w2] eqn:Hev.
  apply put_events_spec in Hev as (Ho2 & _ & _).
  destruct res2 as [[]|]; simplify_eq; try done.
  by rewrite Ho2.
Qed.

Lemma lookup_none_some (t : gmap string (dict F)) k (rec : dict F) :
  t !! k = None → t !! k = Some rec → False.
Proof. congruence. Qed.

Lemma lookup_some_some (t : gmap string (dict F)) k (a b : dict F) :
  t !! k = Some a → t !! k = Some b → a = b.
Proof. congruence. Qed.

(** An order the creation handler has written stays in the table
    whatever runs afterwards: later creations leave it alone and
    processing only sets its status. *)
Lemma created_order_stays w w' k (item : value F) :
  rtc step w w' →
  (orders w !! k = Some (new_order (VStr k) item) ∨
   orders w !! k =
     Some [("orderId", VStr k); ("status", VStr "PROCESSED");
           ("item", item)]) →
  orders w' !! k = Some (new_order (VStr k) item) ∨
  orders w' !! k =
    Some [("orderId", VStr k); ("status", VStr "PROCESSED");
          ("item", item)].
Proof.
  induction 1 as [w|w w1 w' [i Hstep] _ IH]; [done|].
  intros Hw. apply IH. clear IH.
  destruct (invoke i w) as [out w1'] eqn:Hrun. simpl in Hstep. subst w1'.
  destruct i as [environ aws event|environ aws event]; simpl in Hrun.
  - apply creator_effect in Hrun as [[-> _]|(k0 & it & Hnone & -> & _)];
      [done|].
    destruct (decide (k0 = k)) as [->|Hne].
    + destruct Hw as [Hw|Hw]; destruct (lookup_none_some _ _ _ Hnone Hw).
    + rewrite !lookup_insert_ne by done. exact Hw.
  - apply processor_effect in Hrun as [_ [->|(k0 & old & Hold & ->)]];
      [done|].
    destruct (decide (k0 = k)) as [->|Hne].
    + rewrite !lookup_insert_eq. right.
      destruct Hw as [Hw|Hw];
        rewrite (lookup_some_some _ _ _ _ Hold Hw); done.
    + rewrite !lookup_insert_ne by done. exact Hw.
Qed.

(** C2, as amended.  After a creation request for an order id has been
    answered with 200, and whatever the two handlers have done since, a
    second creation request with the same id, whatever its item, leaves
    the table and the bus as they were and makes no publish call: the
    stored record is the one the first request wrote, its status being
    [PROCESSED] if the order has been processed in between.  When the
    second item can be serialized and the store answers the conditional
    insert, the response is 409; when the store call fails with another
    error code it is 500; an item the client cannot serialize, or any
    other exception of the store call, leaves the handler as an
    exception. *)
Theorem duplicate_creation_is_409
    environ aws1 aws2 event1 event2 w d1 d2 order_id r1 w1 w2 :
  order_creator.parse_body event1 = Some (VDict d1) →
  dict_get "orderId" d1 = Some order_id →
  order_creator.handler environ aws1 event1 w = (Return r1, w1) →
  statusCode r1 = 200 →
  rtc step w1 w2 →
  order_creator.parse_body event2 = Some (VDict d2) →
  dict_get "orderId" d2 = Some order_id →
  let item1 := default (VStr "unknown") (dict_get "item" d1) in
  let item2 := default (VStr "unknown") (dict_get "item" d2) in
  ∃ k, order_id = VStr k ∧
    orders w1 !! k =
      Some [("orderId", VStr k); ("status", VStr "NEW"); ("item", item1)] ∧
    (orders w2 !! k =
       Some [("orderId", VStr k); ("status", VStr "NEW"); ("item", item1)] ∨
     orders w2 !! k =
       Some [("orderId", VStr k); ("status", VStr "PROCESSED");
             ("item", item1)]) ∧
    ∀ out w3,
      order_creator.handler environ aws2 event2 w2 = (out, w3) →
      orders w3 = orders w2 ∧
      bus w3 = bus w2 ∧
      calls w3 =
        calls w2 ++
        [PutItem [("orderId", VStr k); ("status", VStr "NEW");
                  ("item", item2)]] ∧
      (serialize_error item2 = None →
       store_fault aws2 = None →
       out = Return {| statusCode := 409;
                       body := dumps (VDict [("error",
                                              VStr "Order already exists")])
                    |}) ∧
      (serialize_error item2 = None →
       ∀ code, store_fault aws2 = Some (ClientError code) →
               code ≠ ConditionalCheckFailedException →
       out = Return {| statusCode := 500;
                       body := dumps (VDict [("error",
                                              VStr "Internal server error")])
                    |}) ∧
      (∀ e, serialize_error item2 = Some e → out = Raise e) ∧
      (serialize_error item2 = None →
       ∀ e, store_fault aws2 = Some e → (∀ code, e ≠ ClientError code) →
       out = Raise e).
Proof.
  intros Hbody1 Hid1 Hrun1 Hcode Hsteps Hbody2 Hid2 item1 item2.
  destruct (creator_200_inv _ _ _ _ _ _ _ _ Hbody1 Hid1 Hrun1 Hcode)
    as (Hcfg & Htrue & k & -> & Hfresh & Ho1 & _).
  exists k. split; [done|].
  assert (orders w1 !! k = Some (new_order (VStr k) item1)) as Hstored
    by (rewrite Ho1; apply lookup_insert_eq).
  split; [done|].
  pose proof (created_order_stays w1 w2 k item1 Hsteps (or_introl Hstored))
    as Hlater.
  split; [exact Hlater|].
  assert (∃ rec, orders w2 !! k = Some rec) as [rec Hrec]
    by (destruct Hlater; eauto).
  intros out w3 Hrun2.
  rewrite (creator_at_store _ _ _ _ d2 (VStr k)) in Hrun2 by done.
  cbv zeta in Hrun2. fold item2 in Hrun2.
  destruct (serialize_error item2) as [e0|] eqn:Hser.
  - unfold put_item in Hrun2.
    rewrite serialize_new_order, Hser in Hrun2.
    destruct (serialize_error_kind item2 e0 Hser) as [->| ->];
      simplify_eq; split_and!; try done; by intros e [= <-].
  - destruct (store_fault aws2) as [e0|] eqn:Hfault.
    + unfold put_item in Hrun2.
      rewrite serialize_new_order, Hser in Hrun2.
      destruct e0 as [code| | | |name].
      * destruct (String.eqb_spec code ConditionalCheckFailedException);
          simplify_eq; split_and!; try done;
          try (by intros _ code' [= <-]);
          intros _ e [= <-] Hother; destruct (Hother _ eq_refl).
      * simplify_eq. split_and!; try done. by intros _ e [= <-].
      * simplify_eq. split_and!; try done. by intros _ e [= <-].
      * simplify_eq. split_and!; try done. by intros _ e [= <-].
      * simplify_eq. split_and!; try done. by intros _ e [= <-].
    + rewrite (put_item_answered k item2 w2 Hser), Hrec in Hrun2.
      rewrite String.eqb_refl in Hrun2.
      simplify_eq. split_and!; done.
Qed.

(** *** Processing *)

Lemma dict_get_set (a : string) (v : value F) d :
  dict_get a (dict_set a v d) = Some v.
Proof.
  induction d as [|[a' v'] d IH]; simpl.
  - by rewrite String.eqb_refl.
  - destruct (String.eqb a a') eqn:Heq; simpl; rewrite Heq; done.
Qed.

Lemma dict_set_set (a : string) (v : value F) d :
  dict_set a v (dict_set a v d) = dict_set a v d.
Proof.
  induction d as [|[a' v'] d IH]; simpl.
  - by rewrite String.eqb_refl.
  - destruct (String.eqb a a') eqn:Heq; simpl; rewrite Heq; congruence.
Qed.

(** C4, as amended.  When a processing event has been answered with
    200, delivering it a second time leaves the table and the bus as the
    first application left them, the record still [PROCESSED].  When the
    store answers the update the handler returns the same 200 response
    reporting [PROCESSED]; the existence condition holds, so the only
    thing the second application can raise is a fault of the store call
    itself. *)
Theorem processing_twice_is_200 environ aws1 event w r1 w1 :
  order_processor.handler environ aws1 event w = (Return r1, w1) →
  statusCode r1 = 200 →
  ∃ k item,
    r1 = {| statusCode := 200;
            body := dumps (VDict [("orderId", VStr k);
                                  ("status", VStr "PROCESSED")]) |} ∧
    orders w1 !! k = Some item ∧
    dict_get "status" item = Some (VStr "PROCESSED") ∧
    ∀ aws2 out w2,
      order_processor.handler environ aws2 event w1 = (out, w2) →
      orders w2 = orders w1 ∧
      bus w2 = bus w1 ∧
      (store_fault aws2 = None → out = Return r1) ∧
      (∀ e, store_fault aws2 = Some e → out = Raise e).
Proof.
  unfold order_processor.handler. intros Hrun Hcode.
  destruct (table_name_missing environ); [by simplify_eq|].
  destruct (if truthy _ then _ else _) as [e|order_id];
    [by simplify_eq|].
  destruct (negb (truthy order_id)); [by simplify_eq|].
  destruct (update_item _ _ _ _ _ w) as [res w'] eqn:Hup.
  apply update_item_spec in Hup as (Hb & _ & [[_ (e & -> & _)]|Hupd]);
    [by simplify_eq|].
  destruct Hupd as (k & _ & _ & Hk & Hc & -> & Ho). simplify_eq.
  apply key_of_key in Hk as ->.
  destruct (orders w !! k) as [old|] eqn:Hold; [|done].
  simpl in Ho.
  set (item := dict_set "status" (VStr "PROCESSED") old) in *.
  assert (orders w1 !! k = Some item) as Hitem
      by (rewrite Ho; apply lookup_insert_eq).
  exists k, item. split; [done|]. split; [done|].
  split; [apply dict_get_set|].
  intros aws2 out w2.
  destruct (store_fault aws2) as [e|].
  - unfold update_item. rewrite serialize_key.
    intros [= <- <-]. split_and!; try done. by intros e' [= <-].
  - rewrite update_item_answered, Hitem. intros [= <- <-]. simpl.
    split_and!; try done.
    unfold item at 1. rewrite dict_set_set. fold item.
    by apply insert_id.
Qed.

(** C3, as amended.  A processing event names an order id for which
    the table holds no record.  Then the table and the bus are
    unchanged and the handler never answers 200.  With [TABLE_NAME]
    configured it returns no response at all: it raises, and what it
    raises is the store's failed condition when the store answers. *)
Theorem processing_unknown_order_raises
    environ aws event w d order_id out w' :
  dict_get "detail" event = Some (VDict d) →
  dict_get "orderId" d = Some order_id →
  truthy order_id = true →
  (∀ k, order_id = VStr k → orders w !! k = None) →
  order_processor.handler environ aws event w = (out, w') →
  orders w' = orders w ∧
  bus w' = bus w ∧
  (∀ r, out = Return r → statusCode r ≠ 200) ∧
  (table_name_missing environ = false →
   ∃ e, out = Raise e ∧
        (store_fault aws = None → ∀ k, order_id = VStr k →
         e = ClientError ConditionalCheckFailedException)).
Proof.
  intros Hdetail Hid Htrue Habsent Hrun.
  destruct (table_name_missing environ) eqn:Hcfg.
  { unfold order_processor.handler in Hrun. rewrite Hcfg in Hrun.
    simplify_eq. split_and!; try done. by intros r [= <-]. }
  rewrite (processor_at_store _ _ _ _ d order_id) in Hrun by done.
  destruct (update_item _ _ _ _ _ w) as [res w1] eqn:Hup.
  apply update_item_spec in Hup
    as (Hb & _ & [[Ho (e & -> & _ & He)]|Hupd]).
  - simplify_eq. split_and!; try done. intros _. eexists.
    split; [done|]. intros Hstore k ->.
    destruct (He (serialize_key k)) as [_ He'].
    by apply (He' Hstore k), key_of_key.
  - destruct Hupd as (k & _ & _ & Hk%key_of_key & Hc & _).
    rewrite (Habsent k Hk) in Hc. done.
Qed.

(** *** Validation *)


(** C10, as amended.  An event without a ["body"] key never makes the
    creation handler raise and never causes a store write or a
    publish.  With [TABLE_NAME] configured the body is taken to be
    the empty JSON object and the answer is the 400 for a missing
    [orderId]. *)
Theorem missing_body_is_400 environ aws event w :
  loads "{}" = Some (VDict []) →
  dict_get "body" event = None →
  order_creator.parse_body event = Some (VDict []) ∧
  (∃ r, order_creator.handler environ aws event w = (Return r, w)) ∧
  (table_name_missing environ = false →
   order_creator.handler environ aws event w =
     (Return {| statusCode := 400;
                body := dumps (VDict [("error",
                                 VStr "Missing 'orderId' in request")]) |},
      w)).
Proof.
  intros Hloads Hnobody.
  assert (order_creator.parse_body event = Some (VDict [])) as Hbody.
  { unfold order_creator.parse_body. by rewrite Hnobody. }
  split; [done|].
  unfold order_creator.handler. rewrite Hbody.
  destruct (table_name_missing environ); split; try done; eauto.
Qed.

(** A body, or a non-empty [detail], that is not an object is outside
    the validation the handlers perform: [.get] raises on it. *)
Lemma non_object_payload_raises environ aws event w v :
  table_name_missing environ = false →
  (∀ d, v ≠ VDict d) →
  (order_creator.parse_body event = Some v →
   order_creator.handler environ aws event w = (Raise AttributeError, w)) ∧
  (dict_get "detail" event = Some v → truthy v = true →
   order_processor.handler environ aws event w = (Raise AttributeError, w)).
Proof.
  intros Hcfg Hv. split.
  - intros Hbody. unfold order_creator.handler. rewrite Hcfg, Hbody.
    destruct v; try done. by destruct (Hv kvs).
  - intros Hdetail Htrue. unfold order_processor.handler.
    rewrite Hcfg, Hdetail. simpl default. rewrite Htrue.
    destruct v; try done. by destruct (Hv kvs).
Qed.

(** *** The lifecycle of an order *)

Lemma lifecycle_of_lookup w w' k :
  orders w' !! k = orders w !! k → lifecycle_of w' k = lifecycle_of w k.
Proof. unfold lifecycle_of. by intros ->. Qed.

Lemma lifecycle_of_order_item w k item :
  orders w !! k = Some item → order_item k item →
  lifecycle_of w k = New ∨ lifecycle_of w k = Processed.
Proof.
  intros Hlook (it & s & -> & [-> | ->]); unfold lifecycle_of;
    rewrite Hlook; simpl; auto.
Qed.

Lemma order_item_processed k (old : dict F) :
  order_item k old →
  order_item k (dict_set "status" (VStr "PROCESSED") old).
Proof.
  intros (it & s & -> & _). exists it, "PROCESSED". simpl. auto.
Qed.

Lemma step_order_items w w' :
  step w w' →
  (∀ k item, orders w !! k = Some item → order_item k item) →
  ∀ k item, orders w' !! k = Some item → order_item k item.
Proof.
  intros [i Hi] Hinv k item.
  destruct (invoke i w) as [out w''] eqn:Hrun. simpl in Hi. subst w''.
  destruct i as [environ aws event|environ aws event]; simpl in Hrun.
  - apply creator_effect in Hrun
      as [[-> _]|(k0 & it & _ & -> & _)]; [by apply Hinv|].
    destruct (decide (k0 = k)) as [->|Hne].
    + rewrite lookup_insert_eq. intros [= <-]. exists it, "NEW". auto.
    + rewrite lookup_insert_ne by done. apply Hinv.
  - apply processor_effect in Hrun
      as [_ [->|(k0 & old & Hold & ->)]]; [by apply Hinv|].
    destruct (decide (k0 = k)) as [->|Hne].
    + rewrite lookup_insert_eq. intros [= <-].
      apply order_item_processed. by apply Hinv.
    + rewrite lookup_insert_ne by done. apply Hinv.
Qed.

Lemma reachable_order_items w :
  reachable w →
  ∀ k item, orders w !! k = Some item → order_item k item.
Proof.
  unfold reachable. revert w.
  apply (rtc_ind_r
           (λ w, ∀ k item, orders w !! k = Some item → order_item k item)).
  - intros k item. simpl. by rewrite lookup_empty.
  - intros w1 w2 _ Hstep IH. by apply (step_order_items w1 w2).
Qed.

(** C1.  In every world the handlers can reach from the empty table,
    and for every order id, one more invocation moves the order along
    [Absent -> New -> Processed] or leaves it where it is.  A creation
    can only turn an absent order into a [NEW] one and never touches
    an existing record; a processing can only set [status] to
    [PROCESSED] on an existing record and never creates one; a record
    once present stays present. *)
Theorem order_lifecycle k w i :
  reachable w →
  lifecycle_of w k ≠ Unknown ∧
  moves (lifecycle_of w k) (lifecycle_of (invoke i w).2 k) ∧
  (lifecycle_of w k = Processed →
   lifecycle_of (invoke i w).2 k = Processed) ∧
  (is_Some (orders w !! k) → is_Some (orders (invoke i w).2 !! k)) ∧
  match i with
  | Create _ _ _ =>
      orders (invoke i w).2 !! k = orders w !! k ∨
      (orders w !! k = None ∧ lifecycle_of (invoke i w).2 k = New)
  | Process _ _ _ =>
      orders (invoke i w).2 !! k = orders w !! k ∨
      (∃ old,
          orders w !! k = Some old ∧
          orders (invoke i w).2 !! k =
            Some (dict_set "status" (VStr "PROCESSED") old) ∧
          lifecycle_of (invoke i w).2 k = Processed)
  end.
Proof.
  intros Hreach.
  pose proof (reachable_order_items w Hreach) as Hinv.
  assert (lifecycle_of w k ≠ Unknown) as Hknown.
  { destruct (orders w !! k) as [item|] eqn:Hlook.
    - destruct (lifecycle_of_order_item w k item Hlook (Hinv _ _ Hlook))
        as [-> | ->]; done.
    - unfold lifecycle_of. by rewrite Hlook. }
  split; [done|].
  cut (moves (lifecycle_of w k) (lifecycle_of (invoke i w).2 k) ∧
       (is_Some (orders w !! k) → is_Some (orders (invoke i w).2 !! k)) ∧
       match i with
       | Create _ _ _ =>
           orders (invoke i w).2 !! k = orders w !! k ∨
           (orders w !! k = None ∧ lifecycle_of (invoke i w).2 k = New)
       | Process _ _ _ =>
           orders (invoke i w).2 !! k = orders w !! k ∨
           (∃ old,
               orders w !! k = Some old ∧
               orders (invoke i w).2 !! k =
                 Some (dict_set "status" (VStr "PROCESSED") old) ∧
               lifecycle_of (invoke i w).2 k = Processed)
       end).
  { intros (Hmoves & Hkeep & Hcases). split_and!; try done.
    intros Hproc. rewrite Hproc in Hmoves. by inversion Hmoves. }
  destruct (invoke i w) as [out w'] eqn:Hrun. simpl.
  destruct i as [environ aws event|environ aws event]; simpl in Hrun.
  - (* creation *)
    apply creator_effect in Hrun as [[Ho _]|(k0 & it & Hfresh & Ho & _)].
    { rewrite Ho. split_and!; auto.
      rewrite (lifecycle_of_lookup w w' k) by by rewrite Ho.
      constructor. }
    destruct (decide (k0 = k)) as [->|Hne].
    + assert (lifecycle_of w k = Absent) as Habs
          by (unfold lifecycle_of; by rewrite Hfresh).
      assert (lifecycle_of w' k = New) as Hnew
          by (unfold lifecycle_of; rewrite Ho, lookup_insert_eq; done).
      rewrite Habs, Hnew. split_and!; [constructor| |by right].
      rewrite Hfresh. by intros [? [=]].
    + assert (orders w' !! k = orders w !! k) as Hsame
          by (rewrite Ho; by apply lookup_insert_ne).
      rewrite (lifecycle_of_lookup w w' k Hsame), Hsame.
      split_and!; auto. constructor.
  - (* processing *)
    apply processor_effect in Hrun as [_ [Ho|(k0 & old & Hold & Ho)]].
    { rewrite Ho. split_and!; auto.
      rewrite (lifecycle_of_lookup w w' k) by by rewrite Ho.
      constructor. }
    destruct (decide (k0 = k)) as [->|Hne].
    + assert (orders w' !! k =
              Some (dict_set "status" (VStr "PROCESSED") old)) as Hnew
          by (rewrite Ho; apply lookup_insert_eq).
      assert (lifecycle_of w' k = Processed) as Hproc.
      { destruct (Hinv k old Hold) as (it & s & -> & _).
        unfold lifecycle_of. rewrite Hnew. done. }
      split_and!.
      * rewrite Hproc.
        destruct (lifecycle_of_order_item w k old Hold (Hinv _ _ Hold))
          as [-> | ->]; constructor.
      * intros _. rewrite Hnew. eauto.
      * right. exists old. done.
    + assert (orders w' !! k = orders w !! k) as Hsame
          by (rewrite Ho; by apply lookup_insert_ne).
      rewrite (lifecycle_of_lookup w w' k Hsame), Hsame.
      split_and!; auto. constructor.
Qed.

(** *** The failure monitor *)

(** C9.  The dead-letter alarm looks at one evaluation period: it is
    raised exactly when the latest pending-message count is at least
    5, whatever was sampled before; 5 raises it and 4 does not. *)
Theorem dlq_alarm_threshold (count : Z) (earlier : list Z) :
  (ServerlessSnacksStack.in_alarm ServerlessSnacksStack.DLQAlarm
     (count :: earlier) = true ↔ 5 ≤ count) ∧
  ServerlessSnacksStack.in_alarm ServerlessSnacksStack.DLQAlarm [5] = true ∧
  ServerlessSnacksStack.in_alarm ServerlessSnacksStack.DLQAlarm [4] = false.
Proof.
  split; [|done].
  unfold ServerlessSnacksStack.in_alarm, ServerlessSnacksStack.breaching.
  simpl. rewrite andb_true_r. apply Z.leb_le.
Qed.

End Verification.

(** * The theorems at the repository's test inputs

    Here the handlers run on the executable [Json.runtime]. *)

(** C8 at the malformed-body event, without any environment. *)
Lemma missing_table_name_is_500_witness :
  order_creator.handler ∅ no_faults Tests.invalid_json_event empty_world =
    (Return {| statusCode := 500;
               body := dumps (VDict [("error",
                                      VStr "Server misconfiguration")]) |},
     empty_world) ∧
  order_processor.handler ∅ no_faults Tests.invalid_json_event empty_world =
    (Return {| statusCode := 500;
               body := dumps (VDict [("error",
                                      VStr "Server misconfiguration")]) |},
     empty_world).
Proof.
  apply (missing_table_name_is_500 ∅ no_faults Tests.invalid_json_event
           empty_world).
  left. reflexivity.
Defined.

(** C5 at the creation test's event, on the empty table. *)
Lemma valid_creation_request_witness :
  order_creator.handler Tests.environ no_faults Tests.chips_event empty_world =
    (Return {| statusCode := 200;
               body := dumps (VDict [("orderId", VStr "123");
                                     ("status", VStr "NEW")]) |},
     {| orders := {["123" := [("orderId", VStr "123"); ("status", VStr "NEW");
                              ("item", VStr "chips")]]};
        bus := [{| Source := "serverless.snacks";
                   DetailType := "OrderCreated";
                   Detail := dumps (VDict [("orderId", VStr "123");
                                           ("item", VStr "chips")]);
                   EventBusName := "OrderEventBus" |}];
        calls := [PutItem [("orderId", VStr "123"); ("status", VStr "NEW");
                           ("item", VStr "chips")];
                  PutEvents [{| Source := "serverless.snacks";
                                DetailType := "OrderCreated";
                                Detail := dumps (VDict [("orderId", VStr "123");
                                                        ("item", VStr "chips")]);
                                EventBusName := "OrderEventBus" |}]] |}).
Proof.
  apply (valid_creation_request Tests.environ no_faults Tests.chips_event
           empty_world
           [("orderId", VStr "123"); ("item", VStr "chips")] "123");
    [reflexivity | vm_compute; reflexivity | reflexivity | discriminate
    | reflexivity | reflexivity | reflexivity | reflexivity | reflexivity].
Defined.

(** C6 at the creation test's event, with the publish throttled. *)
Lemma publish_failure_is_502_witness :
  ∃ w',
    order_creator.handler Tests.environ Tests.publish_throttled
      Tests.chips_event empty_world =
      (Return {| statusCode := 502;
                 body := dumps (VDict [("error",
                                        VStr "Failed to publish event")]) |},
       w') ∧
    orders w' !! "123" =
      Some [("orderId", VStr "123"); ("status", VStr "NEW");
            ("item", VStr "chips")] ∧
    lifecycle_of w' "123" = New ∧
    bus w' = [].
Proof.
  destruct (publish_failure_is_502 Tests.environ Tests.publish_throttled
              Tests.chips_event empty_world
              [("orderId", VStr "123"); ("item", VStr "chips")] "123"
              "ThrottlingException")
    as [Hthrottled _];
    [reflexivity | vm_compute; reflexivity | reflexivity | discriminate
    | reflexivity | reflexivity | reflexivity | reflexivity
    | exact Hthrottled].
Defined.

(** C6 as stated fails when the publish fails otherwise than with a
    [ClientError].  With no connection to the bus, [put_events] raises
    botocore's [EndpointConnectionError]: the insert of order 123 has
    succeeded, the handler returns no response at all, and the order
    stays stored as [NEW].  With the entry rejected, [put_events]
    returns a [FailedEntryCount] of 1: the handler answers 200 although
    nothing has reached the bus. *)
Lemma publish_failure_may_raise :
  match order_creator.handler Tests.environ Tests.publish_unreachable
          Tests.chips_event empty_world with
  | (Raise e, w') =>
      e = OtherError "EndpointConnectionError" ∧
      orders w' !! "123" =
        Some [("orderId", VStr "123"); ("status", VStr "NEW");
              ("item", VStr "chips")] ∧
      bus w' = []
  | (Return _, _) => False
  end ∧
  match order_creator.handler Tests.environ Tests.publish_rejected
          Tests.chips_event empty_world with
  | (Return r, w') =>
      statusCode r = 200 ∧
      orders w' !! "123" =
        Some [("orderId", VStr "123"); ("status", VStr "NEW");
              ("item", VStr "chips")] ∧
      bus w' = []
  | (Raise _, _) => False
  end ∧
  (¬ ∃ r w',
      order_creator.handler Tests.environ Tests.publish_unreachable
        Tests.chips_event empty_world = (Return r, w') ∧
      statusCode r = 502) ∧
  (¬ ∃ r w',
      order_creator.handler Tests.environ Tests.publish_rejected
        Tests.chips_event empty_world = (Return r, w') ∧
      statusCode r = 502).
Proof.
  split; [vm_compute; split_and!; reflexivity|].
  split; [vm_compute; split_and!; reflexivity|].
  split.
  - intros (r & w' & Hrun & _). vm_compute in Hrun. discriminate Hrun.
  - intros (r & w' & Hrun & Hcode).
    vm_compute in Hrun. injection Hrun as <- _. discriminate Hcode.
Qed.

Lemma world_processed_follows :
  rtc step Tests.world_created Tests.world_processed.
Proof.
  apply rtc_once.
  exists (Process Tests.environ no_faults Tests.order_123_event).
  reflexivity.
Defined.

(** C2 (amended): order 123 asked for again with another item, after
    it has been processed. *)
Lemma duplicate_creation_is_409_witness :
  orders Tests.world_created !! "123" =
    Some [("orderId", VStr "123"); ("status", VStr "NEW");
          ("item", VStr "chips")] ∧
  order_creator.handler Tests.environ no_faults Tests.crisps_event
    Tests.world_processed =
    (Return {| statusCode := 409;
               body := dumps (VDict [("error",
                                      VStr "Order already exists")]) |},
     (order_creator.handler Tests.environ no_faults Tests.crisps_event
        Tests.world_processed).2) ∧
  orders (order_creator.handler Tests.environ no_faults Tests.crisps_event
            Tests.world_processed).2 = orders Tests.world_processed ∧
  bus (order_creator.handler Tests.environ no_faults Tests.crisps_event
         Tests.world_processed).2 = bus Tests.world_processed.
Proof.
  destruct (duplicate_creation_is_409 Tests.environ no_faults no_faults
              Tests.chips_event Tests.crisps_event empty_world
              [("orderId", VStr "123"); ("item", VStr "chips")]
              [("orderId", VStr "123"); ("item", VStr "crisps")]
              (VStr "123")
              {| statusCode := 200;
                 body := dumps (VDict [("orderId", VStr "123");
                                       ("status", VStr "NEW")]) |}
              Tests.world_created Tests.world_processed)
    as (k & Hk & Hstored & _ & Hsecond);
    [vm_compute; reflexivity | reflexivity | vm_compute; reflexivity
    | reflexivity | exact world_processed_follows
    | vm_compute; reflexivity | reflexivity |].
  injection Hk as <-.
  destruct (Hsecond _ _ (surjective_pairing _)) as (Ho & Hb & _ & Hout & _).
  split; [exact Hstored|]. split; [|split; [exact Ho | exact Hb]].
  rewrite <- (Hout eq_refl eq_refl). apply surjective_pairing.
Defined.

(** C2 as stated fails when the store call itself fails: order 123
    exists, the second request is throttled, and the answer is 500. *)
Lemma duplicate_creation_may_get_500 :
  orders Tests.world_created !! "123" =
    Some [("orderId", VStr "123"); ("status", VStr "NEW");
          ("item", VStr "chips")] ∧
  order_creator.parse_body Tests.crisps_event =
    Some (VDict [("orderId", VStr "123"); ("item", VStr "crisps")]) ∧
  ¬ ∃ r w',
      order_creator.handler Tests.environ Tests.store_throttled
        Tests.crisps_event Tests.world_created = (Return r, w') ∧
      statusCode r = 409.
Proof.
  split; [vm_compute; reflexivity|]. split; [vm_compute; reflexivity|].
  intros (r & w' & Hrun & Hcode).
  vm_compute in Hrun. injection Hrun as <- _. discriminate Hcode.
Qed.

(** C4 (amended): the processing test's event, delivered twice. *)
Lemma processing_twice_is_200_witness :
  order_processor.handler Tests.environ no_faults Tests.order_123_event
    Tests.world_processed =
    (Return {| statusCode := 200;
               body := dumps (VDict [("orderId", VStr "123");
                                     ("status", VStr "PROCESSED")]) |},
     (order_processor.handler Tests.environ no_faults Tests.order_123_event
        Tests.world_processed).2) ∧
  orders (order_processor.handler Tests.environ no_faults
            Tests.order_123_event Tests.world_processed).2 =
    orders Tests.world_processed ∧
  lifecycle_of Tests.world_processed "123" = Processed.
Proof.
  destruct (processing_twice_is_200 Tests.environ no_faults
              Tests.order_123_event Tests.world_created
              {| statusCode := 200;
                 body := dumps (VDict [("orderId", VStr "123");
                                       ("status", VStr "PROCESSED")]) |}
              Tests.world_processed)
    as (k & item & Hr & Hitem & Hstatus & Hsecond);
    [vm_compute; reflexivity | reflexivity |].
  destruct (Hsecond no_faults _ _ (surjective_pairing _))
    as (Ho & _ & Hout & _).
  split; [|split; [exact Ho | vm_compute; reflexivity]].
  rewrite <- (Hout eq_refl). apply surjective_pairing.
Defined.

(** C4 as stated fails when the store call itself fails: order 123 is
    already [PROCESSED], the second delivery is throttled, and the
    handler raises. *)
Lemma processing_twice_may_raise :
  lifecycle_of Tests.world_processed "123" = Processed ∧
  ¬ ∃ r w',
      order_processor.handler Tests.environ Tests.store_throttled
        Tests.order_123_event Tests.world_processed = (Return r, w').
Proof.
  split; [vm_compute; reflexivity|].
  intros (r & w' & Hrun). vm_compute in Hrun. discriminate Hrun.
Qed.

(** C3 (amended) at the processing test's event, on the empty table. *)
Lemma processing_unknown_order_raises_witness :
  order_processor.handler Tests.environ no_faults Tests.order_123_event
    empty_world =
    (Raise (ClientError ConditionalCheckFailedException),
     (order_processor.handler Tests.environ no_faults Tests.order_123_event
        empty_world).2) ∧
  orders (order_processor.handler Tests.environ no_faults
            Tests.order_123_event empty_world).2 = ∅.
Proof.
  destruct (processing_unknown_order_raises Tests.environ no_faults
              Tests.order_123_event empty_world
              [("orderId", VStr "123")] (VStr "123") _ _
              eq_refl eq_refl eq_refl (λ k _, lookup_empty k)
              (surjective_pairing _))
    as (Ho & _ & _ & Hraise).
  destruct (Hraise eq_refl) as (e & He & Hcode).
  split; [|exact Ho].
  rewrite <- (Hcode eq_refl "123" eq_refl), <- He.
  apply surjective_pairing.
Defined.

(** C3 as stated fails without [TABLE_NAME]: the order is unknown, yet
    the handler returns a response instead of raising. *)
Lemma processing_unknown_order_may_return :
  orders (empty_world (F:=Empty_set)) !! "123" = None ∧
  ¬ ∃ e w',
      order_processor.handler ∅ no_faults Tests.order_123_event empty_world =
        (Raise e, w').
Proof.
  split; [reflexivity|]. intros (e & w' & Hrun). vm_compute in Hrun.
  discriminate Hrun.
Qed.



(** C10 (amended) at the event [{}]. *)
Lemma missing_body_is_400_witness :
  order_creator.parse_body (F:=Empty_set) [] = Some (VDict []) ∧
  order_creator.handler Tests.environ no_faults [] empty_world =
    (Return {| statusCode := 400;
               body := dumps (VDict [("error",
                                VStr "Missing 'orderId' in request")]) |},
     empty_world).
Proof.
  destruct (missing_body_is_400 Tests.environ no_faults [] empty_world)
    as (Hbody & _ & H400); [vm_compute; reflexivity | reflexivity |].
  split; [exact Hbody | apply H400; reflexivity].
Defined.

(** C10 as stated fails without [TABLE_NAME]: the event has no body, yet
    the answer is not a 400. *)
Lemma missing_body_may_get_500 :
  dict_get (F:=Empty_set) "body" [] = None ∧
  ¬ ∃ r w',
      order_creator.handler (F:=Empty_set) ∅ no_faults [] empty_world =
        (Return r, w') ∧
      statusCode r = 400.
Proof.
  split; [reflexivity|]. intros (r & w' & Hrun & Hcode).
  vm_compute in Hrun. injection Hrun as <- _. discriminate Hcode.
Qed.

Lemma world_created_reachable : reachable Tests.world_created.
Proof.
  apply rtc_once.
  exists (Create Tests.environ no_faults Tests.chips_event). reflexivity.
Defined.

(** C1 along the life of order 123: created, then processed. *)
Lemma order_lifecycle_witness :
  lifecycle_of Tests.world_created "123" = New ∧
  lifecycle_of Tests.world_processed "123" = Processed ∧
  moves (lifecycle_of Tests.world_created "123")
        (lifecycle_of Tests.world_processed "123").
Proof.
  destruct (order_lifecycle "123" Tests.world_created
              (Process Tests.environ no_faults Tests.order_123_event)
              world_created_reachable)
    as (_ & Hmoves & _).
  split; [vm_compute; reflexivity|]. split; [vm_compute; reflexivity|].
  exact Hmoves.
Defined.

(** * The repository's tests, replayed *)

(** [test_order_creator_missing_orderId]. *)
Example test_order_creator_missing_orderId :
  match (order_creator.handler Tests.environ no_faults
           Tests.missing_orderId_event empty_world).1 with
  | Return r =>
      statusCode r = 400 ∧ contains "Missing 'orderId'" (body r) = true
  | Raise _ => False
  end.
Proof. vm_compute. split; reflexivity. Qed.

(** [test_order_creator_invalid_json]. *)
Example test_order_creator_invalid_json :
  match (order_creator.handler Tests.environ no_faults
           Tests.invalid_json_event empty_world).1 with
  | Return r => statusCode r = 400 ∧ contains "Invalid JSON" (body r) = true
  | Raise _ => False
  end.
Proof. vm_compute. split; reflexivity. Qed.

(** [test_order_creator_duplicate_order], the conflict coming from the
    table instead of a mock. *)
Example test_order_creator_duplicate_order :
  match (order_creator.handler Tests.environ no_faults Tests.chips_event
           Tests.world_created).1 with
  | Return r =>
      statusCode r = 409 ∧ contains "Order already exists" (body r) = true
  | Raise _ => False
  end.
Proof. vm_compute. split; reflexivity. Qed.

(** [test_order_creator_handler]: the response body read back, and the
    two service calls. *)
Example test_order_creator_handler :
  match order_creator.handler Tests.environ no_faults Tests.chips_event
          empty_world with
  | (Return r, w') =>
      statusCode r = 200 ∧
      loads (body r) =
        Some (VDict [("orderId", VStr "123"); ("status", VStr "NEW")]) ∧
      calls w' =
        [PutItem [("orderId", VStr "123"); ("status", VStr "NEW");
                  ("item", VStr "chips")];
         PutEvents [order_created (VStr "123") (VStr "chips")]]
  | (Raise _, _) => False
  end.
Proof. vm_compute. split_and!; reflexivity. Qed.

(** [test_order_processor_success]. *)
Example test_order_processor_success :
  match order_processor.handler Tests.environ no_faults
          Tests.order_123_event Tests.world_created with
  | (Return r, w') =>
      statusCode r = 200 ∧
      contains "PROCESSED" (body r) = true ∧
      lifecycle_of w' "123" = Processed
  | (Raise _, _) => False
  end.
Proof. vm_compute. split_and!; reflexivity. Qed.

(** [test_order_processor_order_not_exist]. *)
Example test_order_processor_order_not_exist :
  (order_processor.handler Tests.environ no_faults Tests.order_123_event
     empty_world).1 =
    Raise (ClientError "ConditionalCheckFailedException").
Proof. vm_compute. reflexivity. Qed.

(** Beside the repository's tests: order 123 asking for an item that is
    a number of 41 digits.  The serializer's decimal context traps, the
    exception leaves the handler, and nothing is stored or published. *)
Example huge_item_is_not_stored :
  match order_creator.handler Tests.environ no_faults
          Tests.huge_item_event empty_world with
  | (Raise e, w') => e = DecimalException ∧ orders w' = ∅ ∧ bus w' = []
  | (Return _, _) => False
  end.
Proof. vm_compute. split_and!; reflexivity. Qed.

(** [test_stack_resources], the alarm properties. *)
Example test_stack_resources :
  ServerlessSnacksStack.threshold ServerlessSnacksStack.DLQAlarm = 5 ∧
  ServerlessSnacksStack.comparison_operator ServerlessSnacksStack.DLQAlarm =
    ServerlessSnacksStack.GREATER_THAN_OR_EQUAL_TO_THRESHOLD.
Proof. split; reflexivity. Qed.

(** * Beyond the claims: what every run of the handlers does *)

Section Coverage.
Context {F : Type} `{Runtime F}.
Local Open Scope list_scope.

Implicit Types (w : world F) (event d : dict F) (aws : faults)
  (environ : gmap string string) (k : string).

(** *** The paths through the creation handler *)

(** Before the store is called: the handler has answered without
    touching the world, or the request names a truthy order id. *)
Lemma creator_guards environ aws event w out w' :
  order_creator.handler environ aws event w = (out, w') →
  (w' = w ∧
   (out = Return (error_response 500 "Server misconfiguration") ∨
    out = Return (error_response 400 "Invalid JSON in request body") ∨
    out = Return (error_response 400 "Missing 'orderId' in request") ∨
    out = Raise AttributeError)) ∨
  (∃ d order_id,
      table_name_missing environ = false ∧
      order_creator.parse_body event = Some (VDict d) ∧
      dict_get "orderId" d = Some order_id ∧
      truthy order_id = true).
Proof.
  unfold order_creator.handler. intros Hrun.
  destruct (table_name_missing environ); [left; by simplify_eq; auto|].
  destruct (order_creator.parse_body event) as [order|];
    [|left; by simplify_eq; auto].
  destruct order as [| | | | | |d];
    try (left; simpl in Hrun; simplify_eq; by auto 6).
  unfold py_get at 1 in Hrun.
  destruct (dict_get "orderId" d) as [order_id|] eqn:Hid;
    [|left; simpl in Hrun; simplify_eq; by auto 6].
  simpl default in Hrun.
  destruct (truthy order_id) eqn:Htrue;
    [|left; simpl in Hrun; simplify_eq; by auto 6].
  right. by exists d, order_id.
Qed.

(** From the store call on: the client cannot serialize the item, the
    store refuses or fails, or the order is inserted and the publish
    fails or returns. *)
Lemma creator_store_cases environ aws event w d order_id out w' :
  table_name_missing environ = false →
  order_creator.parse_body event = Some (VDict d) →
  dict_get "orderId" d = Some order_id →
  truthy order_id = true →
  order_creator.handler environ aws event w = (out, w') →
  let item := default (VStr "unknown") (dict_get "item" d) in
  let w1 := log (PutItem (new_order order_id item)) w in
  (w' = w1 ∧
   ((∃ e, serialize_error (VDict (new_order order_id item)) = Some e ∧
          out = Raise e) ∨
    (serialize_error (VDict (new_order order_id item)) = None ∧
     ((out = Return (error_response 409 "Order already exists") ∧
       (store_fault aws = Some (ClientError ConditionalCheckFailedException) ∨
        store_fault aws = None ∧
        ∃ k rec, order_id = VStr k ∧ orders w !! k = Some rec)) ∨
      (out = Return (error_response 500 "Internal server error") ∧
       ((∃ code, store_fault aws = Some (ClientError code) ∧
                 code ≠ ConditionalCheckFailedException) ∨
        store_fault aws = None ∧ ∀ k, order_id ≠ VStr k)) ∨
      (∃ e, store_fault aws = Some e ∧ (∀ code, e ≠ ClientError code) ∧
            out = Raise e))))) ∨
  (∃ k, order_id = VStr k ∧ serialize_error item = None ∧
        store_fault aws = None ∧
        orders w !! k = None ∧
        let w2 :=
          log (PutEvents [order_created (VStr k) item])
            (set_orders (<[k := new_order (VStr k) item]> (orders w)) w1) in
        ((∃ code, events_fault aws = Some (ClientError code) ∧
                  out = Return (error_response 502 "Failed to publish event") ∧
                  w' = w2) ∨
         (∃ e, events_fault aws = Some e ∧ (∀ code, e ≠ ClientError code) ∧
               out = Raise e ∧ w' = w2) ∨
         (events_fault aws = None ∧
          out = Return {| statusCode := 200;
                          body := dumps (VDict [("orderId", VStr k);
                                                ("status", VStr "NEW")]) |} ∧
          w' = if events_rejected aws then w2
               else {| orders := orders w2;
                       bus := bus w2 ++ [order_created (VStr k) item];
                       calls := calls w2 |}))).
Proof.
  intros Hcfg Hbody Hid Htrue Hrun item w1.
  rewrite (creator_at_store _ _ _ _ d order_id) in Hrun by done.
  cbv zeta in Hrun. fold item in Hrun. unfold put_item in Hrun.
  fold w1 in Hrun.
  destruct (serialize_error (VDict (new_order order_id item)))
    as [e0|] eqn:Hser.
  { left. destruct (serialize_error_kind _ _ Hser) as [->| ->];
      simplify_eq; split; eauto. }
  destruct (store_fault aws) as [e0|] eqn:Hstore.
  { left. destruct e0 as [code| | | |name].
    - destruct (String.eqb_spec code ConditionalCheckFailedException);
        simplify_eq; split; eauto 9.
    - simplify_eq. split; [done|]. right. split; [done|]. do 2 right.
      eexists. done.
    - simplify_eq. split; [done|]. right. split; [done|]. do 2 right.
      eexists. done.
    - simplify_eq. split; [done|]. right. split; [done|]. do 2 right.
      eexists. done.
    - simplify_eq. split; [done|]. right. split; [done|]. do 2 right.
      eexists. done. }
  destruct (key_of (new_order order_id item)) as [k|] eqn:Hkey.
  2:{ left. simpl in Hrun. simplify_eq. split; [done|]. right.
      split; [done|]. right. left.
      split; [done|]. right. split; [done|]. intros k ->.
      by rewrite (proj2 (key_of_new_order (VStr k) item k) eq_refl) in Hkey. }
  apply key_of_new_order in Hkey as ->.
  rewrite serialize_new_order in Hser.
  change (orders w1) with (orders w) in Hrun.
  destruct (orders w !! k) as [rec|] eqn:Hlook; simpl in Hrun.
  { left. simplify_eq. split; [done|]. right. split; [done|].
    left. split; [done|]. right.
    split; [done|]. by exists k, rec. }
  right. exists k. split_and!; try done.
  unfold put_events in Hrun.
  destruct (events_fault aws) as [e0|].
  - destruct e0 as [code| | | |name]; simplify_eq;
      [left; eauto|right; left; eexists; done..].
  - do 2 right. destruct (events_rejected aws); by simplify_eq.
Qed.


(** X2.  What a 200 from the creation handler tells: the order id was a
    non-empty string that was not in the table, the item could be
    serialized, neither service call raised, the order is now stored as
    [NEW] with the requested item, the body reports that order id, and
    [put_events] was called with exactly the matching entry.  The entry
    is on the bus unless [put_events] reported it as failed in its
    response, which the handler does not read: then the bus is as
    before. *)
Theorem creator_200_is_sound environ aws event w r w' :
  order_creator.handler environ aws event w = (Return r, w') →
  statusCode r = 200 →
  ∃ d k,
    order_creator.parse_body event = Some (VDict d) ∧
    dict_get "orderId" d = Some (VStr k) ∧
    k ≠ "" ∧
    orders w !! k = None ∧
    store_fault aws = None ∧ events_fault aws = None ∧
    let item := default (VStr "unknown") (dict_get "item" d) in
    serialize_error item = None ∧
    r = {| statusCode := 200;
           body := dumps (VDict [("orderId", VStr k);
                                 ("status", VStr "NEW")]) |} ∧
    orders w' = <[k := new_order (VStr k) item]> (orders w) ∧
    bus w' =
      (if events_rejected aws then bus w
       else bus w ++ [order_created (VStr k) item]) ∧
    calls w' =
      calls w ++ [PutItem (new_order (VStr k) item);
                  PutEvents [order_created (VStr k) item]].
Proof.
  intros Hrun Hcode.
  destruct (creator_guards _ _ _ _ _ _ Hrun)
    as [[_ [?|[?|[?|?]]]]|(d & order_id & Hcfg & Hbody & Hid & Htrue)];
    try by simplify_eq.
  destruct (creator_store_cases _ _ _ _ _ _ _ _ Hcfg Hbody Hid Htrue Hrun)
    as [[_ [(e & _ & ?)|(_ & [[? _]|[[? _]|(e & _ & _ & ?)]])]]
       |(k & -> & Hser & Hstore & Hfresh &
           [(c & _ & ? & _)|[(e & _ & _ & ? & _)|(Hev & Hr & ->)]])];
    try by simplify_eq.
  exists d, k. simplify_eq. split_and!; try done.
  - intros ->. done.
  - cbv zeta. destruct (events_rejected aws); simpl;
      rewrite <- app_assoc; done.
Qed.


(** X4.  When the store answers, a 409 is given only for an order that
    is already in the table, and the request has changed nothing. *)
Theorem creator_409_is_sound environ aws event w r w' :
  order_creator.handler environ aws event w = (Return r, w') →
  statusCode r = 409 →
  store_fault aws = None →
  ∃ d k rec,
    order_creator.parse_body event = Some (VDict d) ∧
    dict_get "orderId" d = Some (VStr k) ∧
    orders w !! k = Some rec ∧
    orders w' = orders w ∧
    bus w' = bus w.
Proof.
  intros Hrun Hcode Hstore.
  destruct (creator_guards _ _ _ _ _ _ Hrun)
    as [[_ [?|[?|[?|?]]]]|(d & order_id & Hcfg & Hbody & Hid & Htrue)];
    try by simplify_eq.
  destruct (creator_store_cases _ _ _ _ _ _ _ _ Hcfg Hbody Hid Htrue Hrun)
    as [[-> [(e & _ & ?)
            |(_ & [[_ [?|(_ & k & rec & -> & Hlook)]]
                  |[[? _]|(e & _ & _ & ?)]])]]
       |(k & _ & _ & _ & _ &
           [(c & _ & ? & _)|[(e & _ & _ & ? & _)|(_ & ? & _)]])];
    try by simplify_eq.
  by exists d, k, rec.
Qed.

(** *** The paths through the processing handler *)

Lemma processor_guards environ aws event w out w' :
  order_processor.handler environ aws event w = (out, w') →
  (w' = w ∧
   (out = Return (error_response 500 "Server misconfiguration") ∨
    out = Return (error_response 400 "Invalid event payload") ∨
    out = Raise AttributeError)) ∨
  (∃ d order_id,
      table_name_missing environ = false ∧
      dict_get "detail" event = Some (VDict d) ∧
      dict_get "orderId" d = Some order_id ∧
      truthy order_id = true).
Proof.
  unfold order_processor.handler. intros Hrun.
  destruct (table_name_missing environ); [left; by simplify_eq; auto|].
  destruct (dict_get "detail" event) as [order|] eqn:Hdetail;
    simpl default in Hrun.
  2:{ left. simpl in Hrun. simplify_eq. auto. }
  destruct (truthy order) eqn:Horder.
  2:{ left. simpl in Hrun. simplify_eq. auto. }
  destruct order as [| | | | | |d];
    try (left; simpl in Hrun; simplify_eq; by auto).
  unfold py_get in Hrun.
  destruct (dict_get "orderId" d) as [order_id|] eqn:Hid;
    [|left; simpl in Hrun; simplify_eq; by auto].
  simpl default in Hrun.
  destruct (truthy order_id) eqn:Htrue;
    [|left; simpl in Hrun; simplify_eq; by auto].
  right. by exists d, order_id.
Qed.

Lemma serialize_update (order_id : value F) :
  serialize_error (VList [VDict [("orderId", order_id)]; VStr "PROCESSED"])
    = serialize_error order_id.
Proof. simpl. by destruct (serialize_error order_id). Qed.

Lemma processor_store_cases environ aws event w d order_id out w' :
  table_name_missing environ = false →
  dict_get "detail" event = Some (VDict d) →
  dict_get "orderId" d = Some order_id →
  truthy order_id = true →
  order_processor.handler environ aws event w = (out, w') →
  let w1 := log (UpdateItem [("orderId", order_id)]) w in
  (w' = w1 ∧
   ∃ e, out = Raise e ∧
     (serialize_error order_id = Some e ∨
      serialize_error order_id = None ∧
      (store_fault aws = Some e ∨
       store_fault aws = None ∧
       ((e = ClientError "ValidationException" ∧ ∀ k, order_id ≠ VStr k) ∨
        (e = ClientError ConditionalCheckFailedException ∧
         ∃ k, order_id = VStr k ∧ orders w !! k = None))))) ∨
  (∃ k old,
      order_id = VStr k ∧ store_fault aws = None ∧
      orders w !! k = Some old ∧
      out = Return {| statusCode := 200;
                      body := dumps (VDict [("orderId", VStr k);
                                            ("status", VStr "PROCESSED")]) |} ∧
      w' = set_orders
             (<[k := dict_set "status" (VStr "PROCESSED") old]> (orders w))
             w1).
Proof.
  intros Hcfg Hdetail Hid Htrue Hrun w1.
  rewrite (processor_at_store _ _ _ _ d order_id) in Hrun by done.
  unfold update_item in Hrun. fold w1 in Hrun.
  rewrite serialize_update in Hrun.
  destruct (serialize_error order_id) as [e0|] eqn:Hser.
  { left. simplify_eq. eauto. }
  destruct (store_fault aws) as [e0|] eqn:Hstore.
  { left. simplify_eq. split; [done|]. eexists. split; [done|]. auto. }
  destruct (key_of [("orderId", order_id)]) as [k|] eqn:Hkey.
  2:{ left. simplify_eq. split; [done|]. eexists. split; [done|]. right.
      split; [done|]. right.
      split; [done|]. left. split; [done|]. intros k ->.
      by rewrite (proj2 (key_of_key (VStr k) k) eq_refl) in Hkey. }
  apply key_of_key in Hkey as ->.
  change (orders w1) with (orders w) in Hrun.
  destruct (orders w !! k) as [old|] eqn:Hlook; simpl in Hrun.
  - right. exists k, old. by simplify_eq.
  - left. simplify_eq. split; [done|]. eexists. split; [done|]. right.
    split; [done|]. right.
    split; [done|]. right. split; [done|]. by exists k.
Qed.

(** X5.  An order id that is truthy but not a string cannot be a key of
    the orders table, whose partition key is a string: nothing is
    stored and nothing is published for it.  When the client can
    serialize the request the store refuses the key: the creation
    handler answers 500 and the processing handler raises the store's
    [ValidationException].  When it cannot (a float, an integer of more
    than 38 digits), the serializer's error leaves either handler. *)
Theorem non_string_order_id_is_refused environ aws event w d order_id :
  table_name_missing environ = false →
  store_fault aws = None →
  dict_get "orderId" d = Some order_id →
  truthy order_id = true →
  (∀ k, order_id ≠ VStr k) →
  let item := default (VStr "unknown") (dict_get "item" d) in
  (order_creator.parse_body event = Some (VDict d) →
   ∃ out w',
     order_creator.handler environ aws event w = (out, w') ∧
     orders w' = orders w ∧ bus w' = bus w ∧
     out =
       match serialize_error (VDict (new_order order_id item)) with
       | None =>
           Return {| statusCode := 500;
                     body := dumps (VDict [("error",
                                      VStr "Internal server error")]) |}
       | Some e => Raise e
       end) ∧
  (dict_get "detail" event = Some (VDict d) →
   ∃ out w',
     order_processor.handler environ aws event w = (out, w') ∧
     orders w' = orders w ∧ bus w' = bus w ∧
     out =
       match serialize_error order_id with
       | None => Raise (ClientError "ValidationException")
       | Some e => Raise e
       end).
Proof.
  intros Hcfg Hstore Hid Htrue Hnostr item. split.
  - intros Hbody.
    destruct (order_creator.handler environ aws event w)
      as [out w'] eqn:Hrun.
    exists out, w'. split; [done|].
    destruct (creator_store_cases _ _ _ _ _ _ _ _ Hcfg Hbody Hid Htrue Hrun)
      as [[-> [(e & Hser & ->)
              |(Hser & [[_ [?|(_ & k & ? & -> & _)]]
                       |[[-> _]|(e & ? & _)]])]]
         |(k & -> & _)];
      try by simplify_eq.
    + fold item in Hser. by rewrite Hser.
    + by destruct (Hnostr k).
    + fold item in Hser. by rewrite Hser.
    + by destruct (Hnostr k).
  - intros Hdetail.
    destruct (order_processor.handler environ aws event w)
      as [out w'] eqn:Hrun.
    exists out, w'. split; [done|].
    destruct (processor_store_cases _ _ _ _ _ _ _ _
                Hcfg Hdetail Hid Htrue Hrun)
      as [[-> (e & -> & [Hser|(Hser & [?|(_ & [[-> _]|(_ & k & -> & _)])])])]
         |(k & old & -> & _)];
      try by simplify_eq.
    + by rewrite Hser.
    + by rewrite Hser.
    + by destruct (Hnostr k).
    + by destruct (Hnostr k).
Qed.


(** X7.  A 200 from the processing handler is earned: the event named,
    by a string id, an order that was in the table; the store answered;
    that order now has status [PROCESSED] and is otherwise as it was;
    the one call made is the [update_item], and nothing is published. *)
Theorem processor_200_is_sound environ aws event w r w' :
  order_processor.handler environ aws event w = (Return r, w') →
  statusCode r = 200 →
  ∃ d k old,
    dict_get "detail" event = Some (VDict d) ∧
    dict_get "orderId" d = Some (VStr k) ∧
    orders w !! k = Some old ∧
    store_fault aws = None ∧
    r = {| statusCode := 200;
           body := dumps (VDict [("orderId", VStr k);
                                 ("status", VStr "PROCESSED")]) |} ∧
    orders w' =
      <[k := dict_set "status" (VStr "PROCESSED") old]> (orders w) ∧
    lifecycle_of w' k = Processed ∧
    bus w' = bus w ∧
    calls w' = calls w ++ [UpdateItem [("orderId", VStr k)]].
Proof.
  intros Hrun Hcode.
  destruct (processor_guards _ _ _ _ _ _ Hrun)
    as [[_ [?|[?|?]]]|(d & order_id & Hcfg & Hdetail & Hid & Htrue)];
    try by simplify_eq.
  destruct (processor_store_cases _ _ _ _ _ _ _ _
              Hcfg Hdetail Hid Htrue Hrun)
    as [[_ (code & ? & _)]|(k & old & -> & Hstore & Hold & Hr & ->)];
    try by simplify_eq.
  exists d, k, old. simplify_eq. split_and!; try done.
  unfold lifecycle_of. simpl. rewrite lookup_insert_eq, dict_get_set. done.
Qed.

(** X8.  The processing handler never adds an order to the table, never
    removes one and never publishes: after any run the table has the
    same order ids, the bus is as before, and the calls made are none
    or a single [update_item]. *)
Theorem processor_never_creates environ aws event w :
  dom (orders (order_processor.handler environ aws event w).2) =
    dom (orders w) ∧
  bus (order_processor.handler environ aws event w).2 = bus w ∧
  (calls (order_processor.handler environ aws event w).2 = calls w ∨
   ∃ Key, calls (order_processor.handler environ aws event w).2 =
            calls w ++ [UpdateItem Key]).
Proof.
  destruct (order_processor.handler environ aws event w)
    as [out w'] eqn:Hrun. simpl.
  destruct (processor_guards _ _ _ _ _ _ Hrun)
    as [[-> _]|(d & order_id & Hcfg & Hdetail & Hid & Htrue)]; [auto|].
  destruct (processor_store_cases _ _ _ _ _ _ _ _
              Hcfg Hdetail Hid Htrue Hrun)
    as [[-> _]|(k & old & _ & _ & Hold & _ & ->)]; simpl; [eauto|].
  split_and!; [|done|eauto].
  apply dom_insert_lookup_L. eauto.
Qed.

(** *** What the table keeps *)

Lemma dict_get_set_ne (a b : string) (v : value F) d :
  a ≠ b → dict_get a (dict_set b v d) = dict_get a d.
Proof.
  intros Hne. induction d as [|[a' v'] d IH]; simpl.
  - by destruct (String.eqb_spec a b).
  - destruct (String.eqb_spec b a') as [->|Hb]; simpl.
    + by destruct (String.eqb_spec a a').
    + by rewrite IH.
Qed.

Lemma step_keeps_attributes w w' k rec :
  step w w' →
  orders w !! k = Some rec →
  ∃ rec', orders w' !! k = Some rec' ∧
          (∀ a, a ≠ "status" → dict_get a rec' = dict_get a rec) ∧
          (dict_get "status" rec = Some (VStr "PROCESSED") →
           dict_get "status" rec' = Some (VStr "PROCESSED")).
Proof.
  intros [i Hi] Hrec.
  destruct (invoke i w) as [out w''] eqn:Hrun. simpl in Hi. subst w''.
  destruct i as [environ aws event|environ aws event]; simpl in Hrun.
  - apply creator_effect in Hrun as [[-> _]|(k0 & it & Hfresh & -> & _)];
      [by exists rec|].
    exists rec. split; [|done].
    rewrite lookup_insert_ne; [done|]. intros ->. congruence.
  - apply processor_effect in Hrun as [_ [->|(k0 & old & Hold & ->)]];
      [by exists rec|].
    destruct (decide (k0 = k)) as [->|Hne].
    + rewrite lookup_insert_eq. eexists. split; [done|]. split.
      * intros a Ha. rewrite dict_get_set_ne by done. congruence.
      * intros _. apply dict_get_set.
    + exists rec. by rewrite lookup_insert_ne.
Qed.

(** X9.  Once an order is stored, no sequence of invocations of the two
    handlers, with any events, environments and service behaviour,
    removes it or changes any of its attributes other than [status]:
    its [orderId] and its [item] stay the ones it was created with.
    And once its status is [PROCESSED] it stays [PROCESSED]. *)
Theorem stored_attributes_are_kept w w' k rec :
  rtc step w w' →
  orders w !! k = Some rec →
  ∃ rec', orders w' !! k = Some rec' ∧
          (∀ a, a ≠ "status" → dict_get a rec' = dict_get a rec) ∧
          (dict_get "status" rec = Some (VStr "PROCESSED") →
           dict_get "status" rec' = Some (VStr "PROCESSED")).
Proof.
  intros Hrun Hrec. revert w' Hrun.
  apply (rtc_ind_r
           (λ w', ∃ rec', orders w' !! k = Some rec' ∧
              (∀ a, a ≠ "status" → dict_get a rec' = dict_get a rec) ∧
              (dict_get "status" rec = Some (VStr "PROCESSED") →
               dict_get "status" rec' = Some (VStr "PROCESSED")))).
  - by exists rec.
  - intros w1 w2 _ Hstep (rec1 & Hrec1 & Hattrs & Hstatus).
    destruct (step_keeps_attributes w1 w2 k rec1 Hstep Hrec1)
      as (rec2 & Hrec2 & Hattrs2 & Hstatus2).
    exists rec2. split; [done|]. split.
    + intros a Ha. rewrite Hattrs2 by done. by apply Hattrs.
    + intros Hp. by apply Hstatus2, Hstatus.
Qed.

(** X10.  A run touches at most the order its event names.  Every order
    id other than the string [orderId] of the request body (creation)
    or of the event's [detail] (processing) has the same record, or
    none, after the run as before. *)
Theorem other_orders_are_untouched environ aws event w k :
  ((∀ d, order_creator.parse_body event = Some (VDict d) →
         dict_get "orderId" d ≠ Some (VStr k)) →
   orders (order_creator.handler environ aws event w).2 !! k =
     orders w !! k) ∧
  ((∀ d, dict_get "detail" event = Some (VDict d) →
         dict_get "orderId" d ≠ Some (VStr k)) →
   orders (order_processor.handler environ aws event w).2 !! k =
     orders w !! k).
Proof.
  split; intros Hother.
  - destruct (order_creator.handler environ aws event w)
      as [out w'] eqn:Hrun. simpl.
    destruct (creator_guards _ _ _ _ _ _ Hrun)
      as [[-> _]|(d & order_id & Hcfg & Hbody & Hid & Htrue)]; [done|].
    destruct (creator_store_cases _ _ _ _ _ _ _ _ Hcfg Hbody Hid Htrue Hrun)
      as [[-> _]
         |(k0 & -> & _ & _ & _ &
             [(c & _ & _ & ->)|[(e & _ & _ & _ & ->)|(_ & _ & ->)]])];
      simpl; try done; try destruct (events_rejected aws); simpl;
      (rewrite lookup_insert_ne; [done|]; intros ->;
       by destruct (Hother d Hbody)).
  - destruct (order_processor.handler environ aws event w)
      as [out w'] eqn:Hrun. simpl.
    destruct (processor_guards _ _ _ _ _ _ Hrun)
      as [[-> _]|(d & order_id & Hcfg & Hdetail & Hid & Htrue)]; [done|].
    destruct (processor_store_cases _ _ _ _ _ _ _ _
                Hcfg Hdetail Hid Htrue Hrun)
      as [[-> _]|(k0 & old & -> & _ & _ & _ & ->)]; simpl; [done|].
    rewrite lookup_insert_ne; [done|]. intros ->.
    by destruct (Hother d Hdetail).
Qed.

(** *** The handlers in the stack *)

(** X11.  Whatever the creation handler publishes reaches the
    processor: a run adds no entry or one entry to the bus, and that
    entry is on [OrderEventBus] with the source and detail type that
    [OrderRule] matches. *)
Theorem published_events_match_the_rule environ aws event w :
  ∃ l, bus (order_creator.handler environ aws event w).2 = bus w ++ l ∧
       (List.length l ≤ 1)%nat ∧
       Forall (λ e, Wiring.rule_matches e = true) l.
Proof.
  destruct (order_creator.handler environ aws event w)
    as [out w'] eqn:Hrun. simpl.
  destruct (creator_guards _ _ _ _ _ _ Hrun)
    as [[-> _]|(d & order_id & Hcfg & Hbody & Hid & Htrue)].
  { exists []. rewrite app_nil_r. split_and!; [done|simpl; lia|constructor]. }
  destruct (creator_store_cases _ _ _ _ _ _ _ _ Hcfg Hbody Hid Htrue Hrun)
    as [[-> _]
       |(k0 & -> & _ & _ & _ &
           [(c & _ & _ & ->)|[(e & _ & _ & _ & ->)|(_ & _ & ->)]])];
    simpl.
  - exists []. rewrite app_nil_r. split_and!; [done|simpl; lia|constructor].
  - exists []. rewrite app_nil_r. split_and!; [done|simpl; lia|constructor].
  - exists []. rewrite app_nil_r. split_and!; [done|simpl; lia|constructor].
  - destruct (events_rejected aws); simpl.
    + exists []. rewrite app_nil_r.
      split_and!; [done|simpl; lia|constructor].
    + eexists [_]. split_and!; [done|simpl; lia|].
      constructor; [reflexivity|constructor].
Qed.

(** X12.  The calls each handler makes are calls its function has been
    granted: the creation handler only writes to the table and puts
    events, the processing handler only writes to the table. *)
Theorem handlers_stay_within_grants (i : invocation F) w :
  ∃ l, calls (invoke i w).2 = calls w ++ l ∧
       Forall (λ c, Wiring.permitted (Wiring.function_of i) c = true) l.
Proof.
  destruct (invoke i w) as [out w'] eqn:Hrun. simpl.
  destruct i as [environ aws event|environ aws event]; simpl in Hrun.
  - destruct (creator_guards _ _ _ _ _ _ Hrun)
      as [[-> _]|(d & order_id & Hcfg & Hbody & Hid & Htrue)].
    { exists []. by rewrite app_nil_r. }
    destruct (creator_store_cases _ _ _ _ _ _ _ _ Hcfg Hbody Hid Htrue Hrun)
      as [[-> _]
         |(k0 & -> & _ & _ & _ &
             [(c & _ & _ & ->)|[(e & _ & _ & _ & ->)|(_ & _ & ->)]])];
      simpl.
    + eexists [_]. split; [done|]. by repeat constructor.
    + eexists [_; _]. rewrite <- app_assoc. split; [done|].
      by repeat constructor.
    + eexists [_; _]. rewrite <- app_assoc. split; [done|].
      by repeat constructor.
    + destruct (events_rejected aws); simpl;
        (eexists [_; _]; rewrite <- app_assoc; split; [done|];
         by repeat constructor).
  - destruct (processor_guards _ _ _ _ _ _ Hrun)
      as [[-> _]|(d & order_id & Hcfg & Hdetail & Hid & Htrue)].
    { exists []. by rewrite app_nil_r. }
    destruct (processor_store_cases _ _ _ _ _ _ _ _
                Hcfg Hdetail Hid Htrue Hrun)
      as [[-> _]|(k0 & old & _ & _ & _ & _ & ->)]; simpl;
      (eexists [_]; split; [done|]; by repeat constructor).
Qed.

(** *** One event per order *)



(** *** The pipeline, from request to processed order *)

Lemma environment_is_configured table_name :
  table_name ≠ "" →
  table_name_missing (Wiring.environment table_name) = false.
Proof.
  intros Hne. unfold table_name_missing, Wiring.environment.
  rewrite lookup_singleton_eq. by destruct (String.eqb_spec table_name "").
Qed.

Lemma creation_goes_through environ event w d k :
  table_name_missing environ = false →
  order_creator.parse_body event = Some (VDict d) →
  dict_get "orderId" d = Some (VStr k) →
  k ≠ "" →
  orders w !! k = None →
  serialize_error (default (VStr "unknown") (dict_get "item" d)) = None →
  let item := default (VStr "unknown") (dict_get "item" d) in
  order_creator.handler environ no_faults event w =
    (Return {| statusCode := 200;
               body := dumps (VDict [("orderId", VStr k);
                                     ("status", VStr "NEW")]) |},
     {| orders := <[k := new_order (VStr k) item]> (orders w);
        bus := bus w ++ [order_created (VStr k) item];
        calls := calls w ++ [PutItem (new_order (VStr k) item);
                             PutEvents [order_created (VStr k) item]] |}).
Proof.
  intros Hcfg Hbody Hid Hne Hfresh Hser item.
  rewrite (creator_at_store _ _ _ _ d (VStr k)); try done.
  - cbv zeta. fold item. simpl store_fault.
    rewrite (put_item_answered k item w Hser), Hfresh.
    unfold put_events. simpl. rewrite <- app_assoc. done.
  - simpl. by destruct (String.eqb_spec k "").
Qed.

Lemma processing_goes_through environ event w d k old :
  table_name_missing environ = false →
  dict_get "detail" event = Some (VDict d) →
  dict_get "orderId" d = Some (VStr k) →
  k ≠ "" →
  orders w !! k = Some old →
  order_processor.handler environ no_faults event w =
    (Return {| statusCode := 200;
               body := dumps (VDict [("orderId", VStr k);
                                     ("status", VStr "PROCESSED")]) |},
     {| orders := <[k := dict_set "status" (VStr "PROCESSED") old]> (orders w);
        bus := bus w;
        calls := calls w ++ [UpdateItem [("orderId", VStr k)]] |}).
Proof.
  intros Hcfg Hdetail Hid Hne Hold.
  rewrite (processor_at_store _ _ _ _ d (VStr k)); try done.
  - simpl store_fault. rewrite update_item_answered, Hold. done.
  - simpl. by destruct (String.eqb_spec k "").
Qed.

(** X14.  The pipeline end to end, in the environment the stack gives
    both functions (any non-empty table name), with an item the client
    can serialize, the store answering, the bus accepting the entry,
    and [json] reading back the detail it wrote.  A valid creation
    request for a new order is answered with 200; the event
    it publishes matches the rule; delivered to the processing handler
    it is answered with 200, and the order ends up in the table with
    status [PROCESSED] and the item of the request. *)
Theorem order_flows_end_to_end table_name event w d k :
  table_name ≠ "" →
  order_creator.parse_body event = Some (VDict d) →
  dict_get "orderId" d = Some (VStr k) →
  k ≠ "" →
  orders w !! k = None →
  serialize_error (default (VStr "unknown") (dict_get "item" d)) = None →
  loads (dumps (VDict [("orderId", VStr k);
                       ("item", default (VStr "unknown")
                                  (dict_get "item" d))])) =
    Some (VDict [("orderId", VStr k);
                 ("item", default (VStr "unknown") (dict_get "item" d))]) →
  ∃ r1 w1 e delivery w2,
    order_creator.handler (Wiring.environment table_name) no_faults event w =
      (Return r1, w1) ∧
    statusCode r1 = 200 ∧
    bus w1 = bus w ++ [e] ∧
    Wiring.rule_matches e = true ∧
    Wiring.delivered e = Some delivery ∧
    order_processor.handler (Wiring.environment table_name) no_faults
      delivery w1 =
      (Return {| statusCode := 200;
                 body := dumps (VDict [("orderId", VStr k);
                                       ("status", VStr "PROCESSED")]) |},
       w2) ∧
    orders w2 =
      <[k := [("orderId", VStr k); ("status", VStr "PROCESSED");
              ("item", default (VStr "unknown") (dict_get "item" d))]]>
        (orders w) ∧
    bus w2 = bus w1.
Proof.
  intros Hname Hbody Hid Hne Hfresh Hser Hround.
  pose proof (environment_is_configured table_name Hname) as Hcfg.
  set (item := default (VStr "unknown") (dict_get "item" d)) in *.
  eexists _, _, (order_created (VStr k) item), _, _.
  split; [by apply (creation_goes_through _ _ _ d k)|].
  split; [done|]. split; [done|]. split; [reflexivity|].
  split.
  { unfold Wiring.delivered. simpl Detail. rewrite Hround. done. }
  split.
  { apply (processing_goes_through _ _ _
             [("orderId", VStr k); ("item", item)] k); try done.
    simpl. apply lookup_insert_eq. }
  simpl. split; [|done]. by rewrite insert_insert_eq.
Qed.

(** X15.  Delivery out of order heals on retry, the services
    answering.  If the processing event for an order arrives before the
    order is created, the handler raises the failed condition and
    leaves the table as it was; the creation, of an item the client can
    serialize, then goes through as if nothing had happened; and the
    same event, delivered again, is answered with 200 and leaves the
    order [PROCESSED]. *)
Theorem retry_after_creation_succeeds
    environ creation processing w d pd k :
  table_name_missing environ = false →
  order_creator.parse_body creation = Some (VDict d) →
  dict_get "orderId" d = Some (VStr k) →
  dict_get "detail" processing = Some (VDict pd) →
  dict_get "orderId" pd = Some (VStr k) →
  k ≠ "" →
  orders w !! k = None →
  serialize_error (default (VStr "unknown") (dict_get "item" d)) = None →
  ∃ w1 r2 w2 w3,
    order_processor.handler environ no_faults processing w =
      (Raise (ClientError ConditionalCheckFailedException), w1) ∧
    orders w1 = orders w ∧
    bus w1 = bus w ∧
    order_creator.handler environ no_faults creation w1 = (Return r2, w2) ∧
    statusCode r2 = 200 ∧
    order_processor.handler environ no_faults processing w2 =
      (Return {| statusCode := 200;
                 body := dumps (VDict [("orderId", VStr k);
                                       ("status", VStr "PROCESSED")]) |},
       w3) ∧
    orders w3 =
      <[k := [("orderId", VStr k); ("status", VStr "PROCESSED");
              ("item", default (VStr "unknown") (dict_get "item" d))]]>
        (orders w).
Proof.
  intros Hcfg Hbody Hid Hdetail Hpid Hne Hfresh Hser.
  assert (truthy (VStr k) = true) as Htrue.
  { simpl. by destruct (String.eqb_spec k ""). }
  eexists _, _, _, _. split.
  { rewrite (processor_at_store _ _ _ _ pd (VStr k)) by done.
    simpl store_fault. rewrite update_item_answered, Hfresh. done. }
  split; [done|]. split; [done|]. split.
  { by apply (creation_goes_through _ _ _ d k). }
  split; [done|]. split.
  { apply (processing_goes_through _ _ _ pd k); try done.
    simpl. apply lookup_insert_eq. }
  simpl. by rewrite insert_insert_eq.
Qed.

(** *** The shape of the answers *)

(** X16.  Every response of either handler carries the [json] text of
    an object: for a 200 the object [{orderId, status}] with the order
    id the event named, for any other status an object with the single
    key [error] and a message. *)
Theorem responses_have_one_shape (i : invocation F) w r :
  (invoke i w).1 = Return r →
  (statusCode r = 200 ∧
   ∃ order_id s, body r = dumps (VDict [("orderId", order_id);
                                        ("status", VStr s)]) ∧
                 s = match i with
                     | Create _ _ _ => "NEW"
                     | Process _ _ _ => "PROCESSED"
                     end) ∨
  (statusCode r ≠ 200 ∧
   ∃ msg, body r = dumps (VDict [("error", VStr msg)])).
Proof.
  destruct (invoke i w) as [out w'] eqn:Hrun. simpl. intros ->.
  destruct i as [environ aws event|environ aws event]; simpl in Hrun.
  - destruct (creator_guards _ _ _ _ _ _ Hrun)
      as [[_ [?|[?|[?|?]]]]|(d & order_id & Hcfg & Hbody & Hid & Htrue)];
      simplify_eq; try (right; split; [done|]; by eexists).
    destruct (creator_store_cases _ _ _ _ _ _ _ _ Hcfg Hbody Hid Htrue Hrun)
      as [[_ [(e & _ & ?)|(_ & [[? _]|[[? _]|(e & _ & _ & ?)]])]]
         |(k & -> & _ & _ & _ &
             [(c & _ & ? & _)|[(e & _ & _ & ? & _)|(_ & ? & _)]])];
      simplify_eq; try (right; split; [done|]; by eexists).
    left. split; [done|]. by eexists _, _.
  - destruct (processor_guards _ _ _ _ _ _ Hrun)
      as [[_ [?|[?|?]]]|(d & order_id & Hcfg & Hdetail & Hid & Htrue)];
      simplify_eq; try (right; split; [done|]; by eexists).
    destruct (processor_store_cases _ _ _ _ _ _ _ _
                Hcfg Hdetail Hid Htrue Hrun)
      as [[_ (code & ? & _)]|(k & old & _ & _ & _ & ? & _)];
      simplify_eq.
    left. split; [done|]. by eexists _, _.
Qed.

End Coverage.

(** * The added theorems at the repository's test inputs *)

(** X2 at the creation test. *)
Lemma creator_200_is_sound_witness :
  ∃ d k,
    order_creator.parse_body Tests.chips_event = Some (VDict d) ∧
    dict_get "orderId" d = Some (VStr k) ∧
    orders (empty_world (F:=Empty_set)) !! k = None ∧
    orders Tests.world_created =
      <[k := new_order (VStr k)
               (default (VStr "unknown") (dict_get "item" d))]> ∅.
Proof.
  destruct (creator_200_is_sound Tests.environ no_faults Tests.chips_event
              empty_world
              {| statusCode := 200;
                 body := dumps (VDict [("orderId", VStr "123");
                                       ("status", VStr "NEW")]) |}
              Tests.world_created)
    as (d & k & Hbody & Hid & _ & Hfresh & _ & _ & _ & _ & Ho & _);
    [vm_compute; reflexivity | reflexivity |].
  exists d, k. split; [exact Hbody|]. split; [exact Hid|].
  split; [exact Hfresh | exact Ho].
Defined.


(** X4 at the duplicate-order test. *)
Lemma creator_409_is_sound_witness :
  ∃ d k rec,
    order_creator.parse_body Tests.crisps_event = Some (VDict d) ∧
    dict_get "orderId" d = Some (VStr k) ∧
    orders Tests.world_created !! k = Some rec.
Proof.
  destruct (creator_409_is_sound Tests.environ no_faults Tests.crisps_event
              Tests.world_created
              {| statusCode := 409;
                 body := dumps (VDict [("error",
                                        VStr "Order already exists")]) |}
              (order_creator.handler Tests.environ no_faults
                 Tests.crisps_event Tests.world_created).2)
    as (d & k & rec & Hbody & Hid & Hrec & _);
    [vm_compute; reflexivity | reflexivity | reflexivity |].
  exists d, k, rec. split; [exact Hbody|]. split; [exact Hid | exact Hrec].
Defined.

(** X5 at an event whose order id is the number 123. *)
Lemma non_string_order_id_is_refused_witness :
  (∃ out w', order_creator.handler Tests.environ no_faults
               [("body", VDict [("orderId", VInt 123)]);
                ("detail", VDict [("orderId", VInt 123)])]
               (empty_world (F:=Empty_set)) = (out, w') ∧
             orders w' = ∅ ∧ bus w' = [] ∧
             out = Return {| statusCode := 500;
                             body := dumps (VDict [("error",
                                              VStr "Internal server error")])
                          |}) ∧
  (∃ out w', order_processor.handler Tests.environ no_faults
               [("body", VDict [("orderId", VInt 123)]);
                ("detail", VDict [("orderId", VInt 123)])]
               (empty_world (F:=Empty_set)) = (out, w') ∧
             orders w' = ∅ ∧ bus w' = [] ∧
             out = Raise (ClientError "ValidationException")).
Proof.
  destruct (non_string_order_id_is_refused Tests.environ no_faults
              [("body", VDict [("orderId", VInt 123)]);
               ("detail", VDict [("orderId", VInt 123)])]
              (empty_world (F:=Empty_set))
              [("orderId", VInt 123)] (VInt 123))
    as (Hcreate & Hprocess);
    [reflexivity | reflexivity | reflexivity | reflexivity
    | intros k; discriminate |].
  split; [apply Hcreate | apply Hprocess]; reflexivity.
Defined.

(** X7 at the processing test. *)
Lemma processor_200_is_sound_witness :
  ∃ old,
    orders Tests.world_created !! "123" = Some old ∧
    orders Tests.world_processed =
      <["123" := dict_set "status" (VStr "PROCESSED") old]>
        (orders Tests.world_created) ∧
    lifecycle_of Tests.world_processed "123" = Processed.
Proof.
  destruct (processor_200_is_sound Tests.environ no_faults
              Tests.order_123_event Tests.world_created
              {| statusCode := 200;
                 body := dumps (VDict [("orderId", VStr "123");
                                       ("status", VStr "PROCESSED")]) |}
              Tests.world_processed)
    as (d & k & old & Hdetail & Hid & Hold & _ & _ & Ho & Hlife & _);
    [vm_compute; reflexivity | reflexivity |].
  injection Hdetail as <-. injection Hid as <-.
  exists old. split; [exact Hold|]. split; [exact Ho | exact Hlife].
Defined.

(** X9 from the created order 123 to the processed one. *)
Lemma stored_attributes_are_kept_witness :
  ∃ rec',
    orders Tests.world_processed !! "123" = Some rec' ∧
    dict_get "item" rec' = Some (VStr "chips") ∧
    dict_get "orderId" rec' = Some (VStr "123").
Proof.
  destruct (stored_attributes_are_kept Tests.world_created
              Tests.world_processed "123"
              [("orderId", VStr "123"); ("status", VStr "NEW");
               ("item", VStr "chips")]
              world_processed_follows)
    as (rec' & Hrec' & Hattrs & _); [vm_compute; reflexivity|].
  exists rec'. split; [exact Hrec'|].
  split; (rewrite Hattrs; [reflexivity | discriminate]).
Defined.



(** X14 at the creation test's event, for the table [OrdersTable]. *)
Lemma order_flows_end_to_end_witness :
  ∃ r1 w1 e delivery w2,
    order_creator.handler (Wiring.environment "OrdersTable") no_faults
      Tests.chips_event (empty_world (F:=Empty_set)) = (Return r1, w1) ∧
    bus w1 = [e] ∧
    Wiring.delivered e = Some delivery ∧
    (order_processor.handler (Wiring.environment "OrdersTable") no_faults
       delivery w1).2 = w2 ∧
    orders w2 =
      {["123" := [("orderId", VStr "123"); ("status", VStr "PROCESSED");
                  ("item", VStr "chips")]]}.
Proof.
  destruct (order_flows_end_to_end "OrdersTable" Tests.chips_event
              (empty_world (F:=Empty_set))
              [("orderId", VStr "123"); ("item", VStr "chips")] "123")
    as (r1 & w1 & e & delivery & w2 & Hc & _ & Hbus & _ & Hd & Hp & Ho & _);
    [discriminate | vm_compute; reflexivity | reflexivity | discriminate
    | reflexivity | reflexivity | vm_compute; reflexivity |].
  exists r1, w1, e, delivery, w2.
  split; [exact Hc|]. split; [exact Hbus|]. split; [exact Hd|].
  split; [by rewrite Hp | exact Ho].
Defined.

(** X15 at the two tests' events, processing delivered first. *)
Lemma retry_after_creation_succeeds_witness :
  ∃ w1 r2 w2 w3,
    order_processor.handler Tests.environ no_faults Tests.order_123_event
      (empty_world (F:=Empty_set)) =
      (Raise (ClientError ConditionalCheckFailedException), w1) ∧
    order_creator.handler Tests.environ no_faults Tests.chips_event w1 =
      (Return r2, w2) ∧
    (order_processor.handler Tests.environ no_faults Tests.order_123_event
       w2).2 = w3 ∧
    lifecycle_of w3 "123" = Processed.
Proof.
  destruct (retry_after_creation_succeeds Tests.environ Tests.chips_event
              Tests.order_123_event (empty_world (F:=Empty_set))
              [("orderId", VStr "123"); ("item", VStr "chips")]
              [("orderId", VStr "123")] "123")
    as (w1 & r2 & w2 & w3 & H1 & _ & _ & H2 & _ & H3 & Ho);
    [reflexivity | vm_compute; reflexivity | reflexivity | reflexivity
    | reflexivity | discriminate | reflexivity | reflexivity |].
  exists w1, r2, w2, w3.
  split; [exact H1|]. split; [exact H2|]. split; [by rewrite H3|].
  unfold lifecycle_of. rewrite Ho, lookup_insert_eq. reflexivity.
Defined.

(** X16 at the creation test. *)
Lemma responses_have_one_shape_witness :
  ∃ order_id : value Empty_set,
    (order_creator.handler Tests.environ no_faults Tests.chips_event
       empty_world).1 =
      Return {| statusCode := 200;
                body := dumps (VDict [("orderId", order_id);
                                      ("status", VStr "NEW")]) |}.
Proof.
  destruct (responses_have_one_shape
              (Create Tests.environ no_faults Tests.chips_event)
              (empty_world (F:=Empty_set))
              {| statusCode := 200;
                 body := dumps (VDict [("orderId", VStr "123");
                                       ("status", VStr "NEW")]) |})
    as [(_ & order_id & s & Hbody & ->)|(Hne & _)];
    [vm_compute; reflexivity | | by destruct Hne].
  exists (VStr "123"). vm_compute. reflexivity.
Defined.
